(** * Drm: the display resource manager of the Intel hardware composer

    A shallow embedding of [common/base/Drm.cpp].  The class [Drm] keeps a
    table of output slots ([mOutputs]), a device file descriptor and an
    initialisation flag, and talks to the kernel (libdrm) and to the buffer
    manager of the composer.

    - Pointers to kernel descriptors ([drmModeConnectorPtr] and the like)
      are [option]s of the descriptor: [None] is the null pointer.
    - An operation returns [None] where the C++ has no defined behaviour
      (a null pointer is dereferenced, an array is read past its end).
    - The answers of the kernel and of the buffer manager are read from an
      [Env]; every call made to them is appended to the [calls] history of
      the state, so that "allocated", "released" and "before/after" can be
      stated about a run.
    - Most member functions work through [DrmOutput *output =
      &mOutputs[index]]: their bodies are given on the slot pointed to
      (the [_at] definitions), returning the new slot and the calls made
      in order; the member function reads the slot, runs the body and
      writes the slot back. *)

From stdpp Require Import base option list numbers.

Open Scope Z_scope.

(** ** Constants declared outside [Drm.cpp] *)

(** Modelled from the spec: the device identifiers declared in
    [IDisplayDevice.h], for the two logical devices the module serves. *)
Definition DEVICE_PRIMARY : Z := 0.
Definition DEVICE_EXTERNAL : Z := 1.

(** Modelled from the spec: the slot enumeration declared in [Drm.h],
    "exactly two fixed logical slots: PRIMARY, EXTERNAL". *)
Definition OUTPUT_PRIMARY : Z := 0.
Definition OUTPUT_EXTERNAL : Z := 1.
Definition OUTPUT_MAX : Z := 2.

(** libdrm: [DRM_MODE_TYPE_PREFERRED] is bit 3 of a mode's type mask and
    [DRM_MODE_CONNECTED] is the first value of [drmModeConnection]. *)
Definition DRM_MODE_TYPE_PREFERRED : Z := 8.
Definition DRM_MODE_CONNECTED : Z := 1.

(** ** Kernel descriptors (libdrm structures, the fields the code reads) *)

Record drmModeModeInfo := mkMode {
  hdisplay : Z;
  vdisplay : Z;
  vrefresh : Z;
  flags : Z;
  type : Z
}.

(** What [memset(&mode, 0, sizeof(drmModeModeInfo))] leaves. *)
Definition zero_mode : drmModeModeInfo := mkMode 0 0 0 0 0.

(** [count_modes] is the length of [modes], as libdrm fills it. *)
Record drmModeConnector := mkConnector {
  connector_id : Z;
  connector_type : Z;
  connection : Z;
  encoder_id : Z;
  modes : list drmModeModeInfo;
  mmWidth : Z;
  mmHeight : Z
}.

Definition count_modes (c : drmModeConnector) : Z := Z.of_nat (length (modes c)).

Module Encoder.
Record t := mk {
  encoder_id : Z;
  encoder_type : Z;
  crtc_id : Z
}.
End Encoder.

Module Crtc.
Record t := mk {
  crtc_id : Z;
  buffer_id : Z;
  mode_valid : Z;
  mode : drmModeModeInfo
}.
End Crtc.

(** [drmModeRes]: the three id arrays; each count is the length of its
    array. *)
Record drmModeRes := mkRes {
  connectors : list Z;
  encoders : list Z;
  crtcs : list Z
}.

(** ** The output table *)

(** [struct DrmOutput] of [Drm.h], one per slot. *)
Record DrmOutput := mkOutput {
  connector : option drmModeConnector;
  encoder : option Encoder.t;
  crtc : option Crtc.t;
  mode : drmModeModeInfo;
  fbHandle : Z;
  fbId : Z;
  connected : bool
}.

(** [p == NULL] *)
Definition is_null {A} (p : option A) : bool :=
  match p with None => true | Some _ => false end.

(** A slot after [memset(&mOutputs, 0, sizeof(mOutputs))]. *)
Definition zero_output : DrmOutput :=
  mkOutput None None None zero_mode 0 0 false.

Definition set_connector v (o : DrmOutput) : DrmOutput :=
  mkOutput v (encoder o) (crtc o) (mode o) (fbHandle o) (fbId o) (connected o).
Definition set_encoder v (o : DrmOutput) : DrmOutput :=
  mkOutput (connector o) v (crtc o) (mode o) (fbHandle o) (fbId o) (connected o).
Definition set_crtc v (o : DrmOutput) : DrmOutput :=
  mkOutput (connector o) (encoder o) v (mode o) (fbHandle o) (fbId o) (connected o).
Definition set_mode v (o : DrmOutput) : DrmOutput :=
  mkOutput (connector o) (encoder o) (crtc o) v (fbHandle o) (fbId o) (connected o).
Definition set_fbHandle v (o : DrmOutput) : DrmOutput :=
  mkOutput (connector o) (encoder o) (crtc o) (mode o) v (fbId o) (connected o).
Definition set_fbId v (o : DrmOutput) : DrmOutput :=
  mkOutput (connector o) (encoder o) (crtc o) (mode o) (fbHandle o) v (connected o).
Definition set_connected v (o : DrmOutput) : DrmOutput :=
  mkOutput (connector o) (encoder o) (crtc o) (mode o) (fbHandle o) (fbId o) v.

(** ** Calls to the kernel and to the buffer manager *)

Inductive Call :=
  | c_open
  | c_close (fd : Z)
  | c_drmModeGetResources
  | c_drmModeFreeResources
  | c_drmModeGetConnector (id : Z)
  | c_drmModeFreeConnector (id : Z)
  | c_drmModeGetEncoder (id : Z)
  | c_drmModeFreeEncoder (id : Z)
  | c_drmModeGetCrtc (id : Z)
  | c_drmModeFreeCrtc (id : Z)
  | c_allocFrameBuffer (width height handle : Z)
  | c_freeFrameBuffer (handle : Z)
  | c_drmModeAddFB (handle ret : Z)
  | c_drmModeRmFB (id : Z)
  | c_drmModeSetCrtc (crtc_id fb_id connector_id ret : Z).

(** What the surroundings answer during one operation of the module:
    [open], the kernel's topology queries, the buffer manager, the two
    framebuffer ioctls, and the lookups of [DrmConfig]. *)
Record Env := mkEnv {
  env_open : Z;
  drmModeGetResources : option drmModeRes;
  drmModeGetConnector : Z -> option drmModeConnector;
  drmModeGetEncoder : Z -> option Encoder.t;
  drmModeGetCrtc : Z -> option Crtc.t;
  (** [allocFrameBuffer width height] gives the handle (0: no buffer) and
      the stride *)
  allocFrameBuffer : Z -> Z -> Z * Z;
  (** [drmModeAddFB width height stride handle] gives the return code and
      the framebuffer id the kernel assigns when the code is 0 *)
  drmModeAddFB : Z -> Z -> Z -> Z -> Z * Z;
  (** [drmModeSetCrtc crtc_id fb_id connector_id mode] gives the return
      code *)
  drmModeSetCrtc : Z -> Z -> Z -> drmModeModeInfo -> Z;
  getDrmConnector : Z -> Z;
  getDrmEncoder : Z -> Z
}.

(** ** The object *)

(** The members of [Drm] (the mutex apart), with the history of the calls
    made so far. *)
Record Drm := mkDrm {
  mDrmFd : Z;
  mInitialized : bool;
  mOutputs : list DrmOutput;
  calls : list Call
}.

(** [Drm::Drm()] *)
Definition Drm_new : Drm :=
  mkDrm 0 false (replicate (Z.to_nat OUTPUT_MAX) zero_output) [].

(** [mOutputs[index] = o], after the calls [tr]. *)
Definition store (index : nat) (o : DrmOutput) (tr : list Call) (s : Drm) : Drm :=
  mkDrm (mDrmFd s) (mInitialized s) (<[index := o]> (mOutputs s)) (calls s ++ tr).

Definition log (c : Call) (s : Drm) : Drm :=
  mkDrm (mDrmFd s) (mInitialized s) (mOutputs s) (calls s ++ [c]).

(** ** [Drm::getOutputIndex] *)

Definition getOutputIndex (device : Z) : Z :=
  if device =? DEVICE_PRIMARY then OUTPUT_PRIMARY
  else if device =? DEVICE_EXTERNAL then OUTPUT_EXTERNAL
  else -1.

(** ** [Drm::resetOutput] *)

Definition resetOutput_at (o : DrmOutput) : DrmOutput * list Call :=
  let o := set_connected false o in
  let o := set_mode zero_mode o in
  let '(o, tr1) :=
    match connector o with
    | Some c => (set_connector None o, [c_drmModeFreeConnector (connector_id c)])
    | None => (o, [])
    end in
  let '(o, tr2) :=
    match encoder o with
    | Some e => (set_encoder None o, [c_drmModeFreeEncoder (Encoder.encoder_id e)])
    | None => (o, [])
    end in
  let '(o, tr3) :=
    match crtc o with
    | Some c => (set_crtc None o, [c_drmModeFreeCrtc (Crtc.crtc_id c)])
    | None => (o, [])
    end in
  let '(o, tr4) :=
    if negb (fbId o =? 0) then (set_fbId 0 o, [c_drmModeRmFB (fbId o)])
    else (o, []) in
  let '(o, tr5) :=
    if negb (fbHandle o =? 0) then (set_fbHandle 0 o, [c_freeFrameBuffer (fbHandle o)])
    else (o, []) in
  (o, tr1 ++ tr2 ++ tr3 ++ tr4 ++ tr5).

Definition resetOutput (index : nat) (s : Drm) : option Drm :=
  o ← mOutputs s !! index;
  let '(o, tr) := resetOutput_at o in
  Some (store index o tr s).

(** ** [Drm::isSameDrmMode] *)

Definition isSameDrmMode (value base : drmModeModeInfo) : bool :=
  (hdisplay base =? hdisplay value) &&
  (vdisplay base =? vdisplay value) &&
  (vrefresh base =? vrefresh value) &&
  (Z.land (flags base) (flags value) =? flags value).

(** ** [Drm::setDrmMode(int index, drmModeModeInfoPtr mode)]

    [drmModeAddFB] stores the new id through its last argument,
    [&output->fbId], when it succeeds and leaves it alone when it fails
    (libdrm). *)

Definition setDrmMode_at (env : Env) (mode' : drmModeModeInfo) (o : DrmOutput)
    : option (bool * DrmOutput * list Call) :=
  let currentMode := mode o in
  if isSameDrmMode mode' currentMode then Some (true, o, []) else
  let '(oldFbId, o) :=
    if negb (fbId o =? 0) then (fbId o, set_fbId 0 o) else (0, o) in
  let '(oldFbHandle, o) :=
    if negb (fbHandle o =? 0) then (fbHandle o, set_fbHandle 0 o) else (0, o) in
  (* allocate frame buffer *)
  let '(handle, stride) := allocFrameBuffer env (hdisplay mode') (vdisplay mode') in
  let o := set_fbHandle handle o in
  let tr := [c_allocFrameBuffer (hdisplay mode') (vdisplay mode') handle] in
  if fbHandle o =? 0 then Some (false, o, tr) else
  let '(ret, id) :=
    drmModeAddFB env (hdisplay mode') (vdisplay mode') stride (fbHandle o) in
  let tr := tr ++ [c_drmModeAddFB (fbHandle o) ret] in
  if negb (ret =? 0) then Some (false, o, tr) else
  let o := set_fbId id o in
  c ← crtc o;
  k ← connector o;
  let ret := drmModeSetCrtc env (Crtc.crtc_id c) (fbId o) (connector_id k) mode' in
  let tr := tr ++ [c_drmModeSetCrtc (Crtc.crtc_id c) (fbId o) (connector_id k) ret] in
  let o := if ret =? 0 then set_mode mode' o else o in
  let tr := if negb (oldFbId =? 0) then tr ++ [c_drmModeRmFB oldFbId] else tr in
  let tr := if negb (oldFbHandle =? 0) then tr ++ [c_freeFrameBuffer oldFbHandle] else tr in
  Some (ret =? 0, o, tr).

Definition setDrmMode_index (env : Env) (index : nat) (mode' : drmModeModeInfo)
    (s : Drm) : option (bool * Drm) :=
  o ← mOutputs s !! index;
  '(ret, o, tr) ← setDrmMode_at env mode' o;
  Some (ret, store index o tr s).

(** ** [Drm::initialize] and [Drm::deinitialize] *)

Definition initialize (env : Env) (s : Drm) : option (bool * Drm) :=
  if mInitialized s then Some (true, s) else
  let s := mkDrm (env_open env) (mInitialized s) (mOutputs s) (calls s ++ [c_open]) in
  if mDrmFd s <? 0 then Some (false, s) else
  Some (true, mkDrm (mDrmFd s) true
                    (replicate (Z.to_nat OUTPUT_MAX) zero_output) (calls s)).

(** [for (int i = ...; i < OUTPUT_MAX; i++) resetOutput(i)], with [n]
    rounds left. *)
Fixpoint resetOutputs (i n : nat) (s : Drm) : option Drm :=
  match n with
  | O => Some s
  | S n' => s ← resetOutput i s; resetOutputs (S i) n' s
  end.

Definition deinitialize (s : Drm) : option Drm :=
  s ← resetOutputs 0 (Z.to_nat OUTPUT_MAX) s;
  let s :=
    if negb (mDrmFd s =? 0)
    then mkDrm 0 (mInitialized s) (mOutputs s) (calls s ++ [c_close (mDrmFd s)])
    else s in
  Some (mkDrm (mDrmFd s) false (mOutputs s) (calls s)).

(** ** Choosing a mode of the connector's list *)

(** [mode->type & DRM_MODE_TYPE_PREFERRED] *)
Definition preferred (m : drmModeModeInfo) : bool :=
  negb (Z.land (type m) DRM_MODE_TYPE_PREFERRED =? 0).

(** The loop of [setDrmMode(int, drmModeModeInfo&)] and of
    [setRefreshRate], which differ in the test [same] only: [i] is the
    loop counter, [index] the local of that name, [ms] the modes from
    position [i] on.  The result is [index] when the loop is left. *)
Fixpoint select_mode (same : drmModeModeInfo -> bool) (i index : nat)
    (ms : list drmModeModeInfo) : nat :=
  match ms with
  | [] => index
  | m :: ms' =>
      let index := if preferred m then i else index in
      if same m then i else select_mode same (S i) index ms'
  end.

(** The loop of [initDrmMode]; [index] starts as 0 and is only assigned
    where the loop is left. *)
Fixpoint initDrmMode_loop (i : nat) (ms : list drmModeModeInfo) : nat :=
  match ms with
  | [] => O
  | m :: ms' => if preferred m then i else initDrmMode_loop (S i) ms'
  end.

(** The test of [setRefreshRate]: the resolution of the slot's mode and
    [(uint32_t)hz]. *)
Definition sameRefresh (current : drmModeModeInfo) (hz : Z) (m : drmModeModeInfo) : bool :=
  (hdisplay m =? hdisplay current) &&
  (vdisplay m =? vdisplay current) &&
  (vrefresh m =? hz mod 2 ^ 32).

(** ** [Drm::initDrmMode] *)

Definition initDrmMode_at (env : Env) (o : DrmOutput)
    : option (bool * DrmOutput * list Call) :=
  k ← connector o;
  if count_modes k <=? 0 then Some (false, o, []) else
  let index := initDrmMode_loop 0 (modes k) in
  m ← modes k !! index;
  setDrmMode_at env m o.

(** ** [RETURN_FALSE_IF_NOT_INIT] *)

(** Modelled from the spec: the test of the macro, which is defined in
    [HwcTrace.h] ("requires prior successful initialize(); fails with
    NotInitialized otherwise"). *)
Definition not_init (s : Drm) : bool := negb (mInitialized s).

(** ** [Drm::setDrmMode(int device, drmModeModeInfo& value)] *)

Definition setDrmMode (env : Env) (device : Z) (value : drmModeModeInfo)
    (s : Drm) : option (bool * Drm) :=
  if not_init s then Some (false, s) else
  if negb (device =? DEVICE_EXTERNAL) then Some (false, s) else
  let outputIndex := getOutputIndex device in
  if outputIndex <? 0 then Some (false, s) else
  o ← mOutputs s !! Z.to_nat outputIndex;
  if negb (connected o) then Some (false, s) else
  k ← connector o;
  if count_modes k <=? 0 then Some (false, s) else
  let index := select_mode (isSameDrmMode value) 0 0 (modes k) in
  m ← modes k !! index;
  setDrmMode_index env (Z.to_nat outputIndex) m s.

(** ** [Drm::setRefreshRate] *)

Definition setRefreshRate (env : Env) (device : Z) (hz : Z)
    (s : Drm) : option (bool * Drm) :=
  if not_init s then Some (false, s) else
  if negb (device =? DEVICE_EXTERNAL) then Some (false, s) else
  let outputIndex := getOutputIndex device in
  if outputIndex <? 0 then Some (false, s) else
  o ← mOutputs s !! Z.to_nat outputIndex;
  if negb (connected o) then Some (false, s) else
  k ← connector o;
  if count_modes k <=? 0 then Some (false, s) else
  let index := select_mode (sameRefresh (mode o) hz) 0 0 (modes k) in
  m ← modes k !! index;
  setDrmMode_index env (Z.to_nat outputIndex) m s.

(** ** The query accessors

    [getModeInfo] and [getPhysicalSize] answer [None] where the C++
    returns [false] and leaves its reference arguments alone. *)

Definition getModeInfo (device : Z) (s : Drm) : option (option drmModeModeInfo * Drm) :=
  let outputIndex := getOutputIndex device in
  if outputIndex <? 0 then Some (None, s) else
  o ← mOutputs s !! Z.to_nat outputIndex;
  if negb (connected o) then Some (None, s) else
  if (hdisplay (mode o) =? 0) || (vdisplay (mode o) =? 0) then Some (None, s) else
  Some (Some (mode o), s).

Definition getPhysicalSize (device : Z) (s : Drm) : option (option (Z * Z) * Drm) :=
  let outputIndex := getOutputIndex device in
  if outputIndex <? 0 then Some (None, s) else
  o ← mOutputs s !! Z.to_nat outputIndex;
  if negb (connected o) then Some (None, s) else
  k ← connector o;
  Some (Some (mmWidth k, mmHeight k), s).

Definition isConnected (device : Z) (s : Drm) : option (bool * Drm) :=
  let output := getOutputIndex device in
  if output <? 0 then Some (false, s) else
  o ← mOutputs s !! Z.to_nat output;
  Some (connected o, s).

(** ** [Drm::detect] *)

(** The encoder loop of [detect] (the fallback when the connector has no
    usable encoder attached).  [js] is what is left of
    [resources->encoders] for the counter [j]; the entry that is fetched
    is [resources->encoders[i]], [i] being the counter of the enclosing
    connector loop. *)
Fixpoint encoder_scan (env : Env) (device : Z) (res : drmModeRes) (i : nat)
    (js : list Z) : option (option Encoder.t * list Call) :=
  match js with
  | [] => Some (None, [])
  | ej :: js' =>
      if ej =? 0 then encoder_scan env device res i js' else
      id ← encoders res !! i;
      match drmModeGetEncoder env id with
      | None =>
          '(r, tr) ← encoder_scan env device res i js';
          Some (r, c_drmModeGetEncoder id :: tr)
      | Some e =>
          if Encoder.encoder_type e =? getDrmEncoder env device
          then Some (Some e, [c_drmModeGetEncoder id])
          else
            '(r, tr) ← encoder_scan env device res i js';
            Some (r, c_drmModeGetEncoder id ::
                     c_drmModeFreeEncoder (Encoder.encoder_id e) :: tr)
      end
  end.

(** The CRTC loop of [detect]: the first CRTC that drives no buffer. *)
Fixpoint crtc_scan (env : Env) (js : list Z) : option Crtc.t * list Call :=
  match js with
  | [] => (None, [])
  | cj :: js' =>
      if cj =? 0 then crtc_scan env js' else
      match drmModeGetCrtc env cj with
      | None =>
          let '(r, tr) := crtc_scan env js' in
          (r, c_drmModeGetCrtc cj :: tr)
      | Some c =>
          if Crtc.buffer_id c =? 0 then (Some c, [c_drmModeGetCrtc cj])
          else
            let '(r, tr) := crtc_scan env js' in
            (r, c_drmModeGetCrtc cj :: c_drmModeFreeCrtc (Crtc.crtc_id c) :: tr)
      end
  end.

(** The encoder of a connected connector: the attached one, else the
    scan. *)
Definition resolve_encoder (env : Env) (device : Z) (res : drmModeRes) (i : nat)
    (k : drmModeConnector) (o : DrmOutput) : option (DrmOutput * list Call) :=
  let '(o, tr1) :=
    if negb (encoder_id k =? 0)
    then (set_encoder (drmModeGetEncoder env (encoder_id k)) o,
          [c_drmModeGetEncoder (encoder_id k)])
    else (o, []) in
  match encoder o with
  | Some _ => Some (o, tr1)
  | None =>
      '(e, tr2) ← encoder_scan env device res i (encoders res);
      match e with
      | Some e => Some (set_encoder (Some e) o, tr1 ++ tr2)
      | None => Some (o, tr1 ++ tr2)
      end
  end.

(** The CRTC of an encoder: the attached one, else a spare one. *)
Definition resolve_crtc (env : Env) (res : drmModeRes) (e : Encoder.t)
    (o : DrmOutput) : DrmOutput * list Call :=
  let '(o, tr1) :=
    if negb (Encoder.crtc_id e =? 0)
    then (set_crtc (drmModeGetCrtc env (Encoder.crtc_id e)) o,
          [c_drmModeGetCrtc (Encoder.crtc_id e)])
    else (o, []) in
  match crtc o with
  | Some _ => (o, tr1)
  | None =>
      let '(c, tr2) := crtc_scan env (crtcs res) in
      match c with
      | Some c => (set_crtc (Some c) o, tr1 ++ tr2)
      | None => (o, tr1 ++ tr2)
      end
  end.

(** The rest of the connector loop's body once the connector is of the
    device's type and connected; every path through it leaves the loop. *)
Definition detect_connected (env : Env) (device : Z) (res : drmModeRes) (i : nat)
    (k : drmModeConnector) (o : DrmOutput) : option (bool * DrmOutput * list Call) :=
  let o := set_connector (Some k) o in
  let o := set_connected true o in
  '(o, tr1) ← resolve_encoder env device res i k o;
  match encoder o with
  | None => Some (false, o, tr1)
  | Some e =>
      let '(o, tr2) := resolve_crtc env res e o in
      match crtc o with
      | None => Some (false, o, tr1 ++ tr2)
      | Some c =>
          if negb (Crtc.mode_valid c =? 0)
          then Some (true, set_mode (Crtc.mode c) o, tr1 ++ tr2)
          else
            '(ret, o, tr3) ← initDrmMode_at env o;
            Some (ret, o, tr1 ++ tr2 ++ tr3)
      end
  end.

(** The connector loop of [detect]; [cs] is what is left of
    [resources->connectors] for the counter [i].  The result carries
    [ret]. *)
Fixpoint connector_scan (env : Env) (device : Z) (res : drmModeRes) (i : nat)
    (cs : list Z) (o : DrmOutput) : option (bool * DrmOutput * list Call) :=
  match cs with
  | [] => Some (false, o, [])
  | ci :: cs' =>
      if ci =? 0 then connector_scan env device res (S i) cs' o else
      match drmModeGetConnector env ci with
      | None =>
          '(ret, o, tr) ← connector_scan env device res (S i) cs' o;
          Some (ret, o, c_drmModeGetConnector ci :: tr)
      | Some k =>
          if negb (connector_type k =? getDrmConnector env device)
          then
            '(ret, o, tr) ← connector_scan env device res (S i) cs' o;
            Some (ret, o, c_drmModeGetConnector ci ::
                          c_drmModeFreeConnector (connector_id k) :: tr)
          else if negb (connection k =? DRM_MODE_CONNECTED)
          then Some (true, o, [c_drmModeGetConnector ci;
                               c_drmModeFreeConnector (connector_id k)])
          else
            '(ret, o, tr) ← detect_connected env device res i k o;
            Some (ret, o, c_drmModeGetConnector ci :: tr)
      end
  end.

Definition detect (env : Env) (device : Z) (s : Drm) : option (bool * Drm) :=
  if not_init s then Some (false, s) else
  let outputIndex := getOutputIndex device in
  if outputIndex <? 0 then Some (false, s) else
  let index := Z.to_nat outputIndex in
  s ← resetOutput index s;
  let s := log c_drmModeGetResources s in
  match drmModeGetResources env with
  | None => Some (false, s)
  | Some resources =>
      o ← mOutputs s !! index;
      '(ret, o, tr) ← connector_scan env device resources 0 (connectors resources) o;
      let s := store index o tr s in
      '(ret, s) ←
        (if negb ret then
           let ret :=
             if is_null (connector o) && negb (outputIndex =? OUTPUT_PRIMARY)
             then true else ret in
           s ← resetOutput index s;
           Some (ret, s)
         else Some (ret, s));
      Some (ret, log c_drmModeFreeResources s)
  end.

(** ** [Drm::writeReadIoctl] and [Drm::writeIoctl]

    The payload is [None] for a null [data]; the answer of
    [drmCommandWriteRead] (the error code and the payload as the kernel
    leaves it) and of [drmCommandWrite] (the error code) are arguments.
    The results carry the kernel calls made. *)

Inductive IoctlCall :=
  | io_drmCommandWriteRead (fd cmd size : Z)
  | io_drmCommandWrite (fd cmd size : Z).

Definition writeReadIoctl (drmCommandWriteRead : Z -> Z -> list Z -> Z -> Z * list Z)
    (cmd : Z) (data : option (list Z)) (size : Z) (s : Drm)
    : bool * option (list Z) * list IoctlCall :=
  if mDrmFd s <=? 0 then (false, data, []) else
  match data with
  | None => (false, data, [])
  | Some d =>
      if size =? 0 then (false, data, []) else
      let '(err, d') := drmCommandWriteRead (mDrmFd s) cmd d size in
      (err =? 0, Some d', [io_drmCommandWriteRead (mDrmFd s) cmd size])
  end.

Definition writeIoctl (drmCommandWrite : Z -> Z -> list Z -> Z -> Z)
    (cmd : Z) (data : option (list Z)) (size : Z) (s : Drm)
    : bool * list IoctlCall :=
  if mDrmFd s <=? 0 then (false, []) else
  match data with
  | None => (false, [])
  | Some d =>
      if size =? 0 then (false, []) else
      let err := drmCommandWrite (mDrmFd s) cmd d size in
      (err =? 0, [io_drmCommandWrite (mDrmFd s) cmd size])
  end.

(** ** [Drm::getDrmFd] *)

Definition getDrmFd (s : Drm) : Z := mDrmFd s.

(** ** [Drm::setDpmsMode]

    The function returns [false] at its second statement; what follows
    in the source is never run. *)
Definition setDpmsMode (device mode' : Z) (s : Drm) : option (bool * Drm) :=
  Some (false, s).

(** * Notions used to state the properties *)

(** ** Running the public operations *)

Inductive Op :=
  | op_initialize
  | op_deinitialize
  | op_detect (device : Z)
  | op_setDrmMode (device : Z) (value : drmModeModeInfo)
  | op_setRefreshRate (device : Z) (hz : Z).

Definition run (env : Env) (op : Op) (s : Drm) : option (bool * Drm) :=
  match op with
  | op_initialize => initialize env s
  | op_deinitialize => s' ← deinitialize s; Some (true, s')
  | op_detect device => detect env device s
  | op_setDrmMode device value => setDrmMode env device value s
  | op_setRefreshRate device hz => setRefreshRate env device hz s
  end.

(** The states a freshly constructed object can get into, whatever the
    surroundings answer at each operation. *)
Inductive reachable : Drm -> Prop :=
  | reachable_new : reachable Drm_new
  | reachable_run env op s ret s' :
      reachable s -> run env op s = Some (ret, s') -> reachable s'.

(** ** Invariants of a slot *)

(** The invariants of the output state as the specification words them. *)
Definition output_inv (o : DrmOutput) : Prop :=
  (connected o = true -> connector o <> None) /\
  (fbId o <> 0 <-> fbHandle o <> 0).

Definition Drm_inv (s : Drm) : Prop := Forall output_inv (mOutputs s).

(** The part of them that every reachable state has. *)
Definition weak_inv (o : DrmOutput) : Prop :=
  (connected o = true -> connector o <> None) /\
  (fbId o <> 0 -> fbHandle o <> 0).

Definition same_framebuffer (o o' : DrmOutput) : Prop :=
  fbId o' = fbId o /\ fbHandle o' = fbHandle o.

(** A slot as teardown leaves it. *)
Definition slot_clean (o : DrmOutput) : Prop :=
  connected o = false /\ mode o = zero_mode /\ fbId o = 0 /\ fbHandle o = 0.

(** ** Mode flags *)

(** Every flag bit of the request is set in the current mode. *)
Definition flags_subset (requested current : Z) : Prop :=
  forall n, 0 <= n -> Z.testbit requested n = true -> Z.testbit current n = true.

(** ** Releasing the framebuffer a slot held before a commit *)

Definition release_previous (o : DrmOutput) : list Call :=
  (if negb (fbId o =? 0) then [c_drmModeRmFB (fbId o)] else []) ++
  (if negb (fbHandle o =? 0) then [c_freeFrameBuffer (fbHandle o)] else []).

(** ** The tie-break rule of the specification

    "Iterate the connector's supported mode list in order; remember the
    index of the last-seen mode flagged preferred as a fallback; if an
    exact-match mode is found, it wins immediately and search stops;
    otherwise the remembered preferred index is used, or index 0 if none
    was flagged preferred." *)

Fixpoint first_index (P : drmModeModeInfo -> bool) (ms : list drmModeModeInfo)
    : option nat :=
  match ms with
  | [] => None
  | m :: ms' => if P m then Some O else S <$> first_index P ms'
  end.

Fixpoint last_index (P : drmModeModeInfo -> bool) (ms : list drmModeModeInfo)
    : option nat :=
  match ms with
  | [] => None
  | m :: ms' =>
      match last_index P ms' with
      | Some p => Some (S p)
      | None => if P m then Some O else None
      end
  end.

Definition tie_break_rule (same : drmModeModeInfo -> bool)
    (ms : list drmModeModeInfo) : nat :=
  match first_index same ms with
  | Some k => k
  | None => default O (last_index preferred ms)
  end.

(** ** The encoder fallback of the specification

    "Scan all encoders for one whose type matches the device's expected
    encoder type": every entry of the list in order, each fetched by its
    own id. *)
Fixpoint encoder_scan_in_order (env : Env) (device : Z) (js : list Z)
    : option Encoder.t :=
  match js with
  | [] => None
  | ej :: js' =>
      if ej =? 0 then encoder_scan_in_order env device js' else
      match drmModeGetEncoder env ej with
      | None => encoder_scan_in_order env device js'
      | Some e =>
          if Encoder.encoder_type e =? getDrmEncoder env device then Some e
          else encoder_scan_in_order env device js'
      end
  end.

(** ** What stands in the way of a detection *)

(** The first entry of the connector list that is non-zero, that the
    kernel describes, and whose type is the one configured for the
    device, with its position. *)
Fixpoint matching_connector (env : Env) (device : Z) (cs : list Z)
    : option (nat * drmModeConnector) :=
  match cs with
  | [] => None
  | ci :: cs' =>
      let next := prod_map S id <$> matching_connector env device cs' in
      if ci =? 0 then next else
      match drmModeGetConnector env ci with
      | Some k =>
          if connector_type k =? getDrmConnector env device then Some (O, k) else next
      | None => next
      end
  end.

(** The encoder [detect] ends up with for the connector [k] found at
    position [i] (the outer [None]: the scan reads past the encoder
    list). *)
Definition resolved_encoder (env : Env) (device : Z) (res : drmModeRes) (i : nat)
    (k : drmModeConnector) : option (option Encoder.t) :=
  match (if encoder_id k =? 0 then None else drmModeGetEncoder env (encoder_id k)) with
  | Some e => Some (Some e)
  | None => fst <$> encoder_scan env device res i (encoders res)
  end.

(** The CRTC [detect] ends up with for the encoder [e]. *)
Definition resolved_crtc (env : Env) (res : drmModeRes) (e : Encoder.t)
    : option Crtc.t :=
  match (if Encoder.crtc_id e =? 0 then None
         else drmModeGetCrtc env (Encoder.crtc_id e)) with
  | Some c => Some c
  | None => (crtc_scan env (crtcs res)).1
  end.

Inductive Obstacle := no_connector | not_connected | no_encoder | no_crtc.

(** The obstacle a detection meets in a given topology, if any. *)
Definition obstacle (env : Env) (device : Z) (res : drmModeRes) : option Obstacle :=
  match matching_connector env device (connectors res) with
  | None => Some no_connector
  | Some (i, k) =>
      if negb (connection k =? DRM_MODE_CONNECTED) then Some not_connected else
      match resolved_encoder env device res i k with
      | None => None
      | Some None => Some no_encoder
      | Some (Some e) =>
          match resolved_crtc env res e with
          | None => Some no_crtc
          | Some _ => None
          end
      end
  end.

(** What [detect] answers when it meets the obstacle: a missing connector
    is fatal for the primary slot only, a connector that is not connected
    is never fatal, a missing encoder or CRTC always is. *)
Definition verdict (ob : Obstacle) (device : Z) : bool :=
  match ob with
  | no_connector => negb (getOutputIndex device =? OUTPUT_PRIMARY)
  | not_connected => true
  | no_encoder | no_crtc => false
  end.

(** ** Handles of a connected slot *)

(** A connected slot has its connector, its encoder and its CRTC. *)
Definition handles_inv (o : DrmOutput) : Prop :=
  connected o = true ->
  is_Some (connector o) /\ is_Some (encoder o) /\ is_Some (crtc o).

(** A CRTC the scan of [detect] passes over: the entry is zero, the
    kernel does not describe it, or it drives a buffer. *)
Definition crtc_busy (env : Env) (cj : Z) : Prop :=
  cj = 0 \/ drmModeGetCrtc env cj = None \/
  exists c, drmModeGetCrtc env cj = Some c /\ Crtc.buffer_id c <> 0.

(** ** A machine with a panel and an HDMI port *)

Module Scenario.

Definition mode_panel : drmModeModeInfo := mkMode 800 1280 60 0 8.
Definition mode_1080p : drmModeModeInfo := mkMode 1920 1080 60 5 8.
Definition mode_720p : drmModeModeInfo := mkMode 1280 720 60 5 0.

(** The panel (a DSI connector, id 30) and the HDMI port (id 31), given
    their connection state and the encoder attached. *)
Definition panel (connection : Z) : drmModeConnector :=
  mkConnector 30 16 connection 40 [mode_panel] 94 151.
Definition hdmi (connection encoder_id : Z) : drmModeConnector :=
  mkConnector 31 11 connection encoder_id [mode_1080p; mode_720p] 520 290.

Definition dsi_encoder : Encoder.t := Encoder.mk 40 6 50.
Definition tmds_encoder : Encoder.t := Encoder.mk 41 2 51.

(** The first CRTC drives the panel from buffer 100; the second one is
    spare and has no mode programmed. *)
Definition pipe_a : Crtc.t := Crtc.mk 50 100 1 mode_panel.
Definition pipe_b : Crtc.t := Crtc.mk 51 0 0 zero_mode.

(** The surroundings: the topology [res], the two connectors [p] and [k],
    the handle the buffer manager hands out, and the return codes of
    [drmModeAddFB] and [drmModeSetCrtc].  The kernel numbers the
    framebuffer of buffer [h] as [100 + h]. *)
Definition kernel (res : drmModeRes) (p k : drmModeConnector)
    (handle addfb_ret setcrtc_ret : Z) : Env :=
  mkEnv 3 (Some res)
    (fun id => if id =? 30 then Some p else if id =? 31 then Some k else None)
    (fun id => if id =? 40 then Some dsi_encoder
               else if id =? 41 then Some tmds_encoder else None)
    (fun id => if id =? 50 then Some pipe_a else if id =? 51 then Some pipe_b else None)
    (fun w h => (handle, 4 * w))
    (fun _ _ _ h => (addfb_ret, 100 + h))
    (fun _ _ _ _ => setcrtc_ret)
    (fun device => if device =? DEVICE_PRIMARY then 16 else 11)
    (fun device => if device =? DEVICE_PRIMARY then 6 else 2).

(** The same surroundings with the second CRTC gone. *)
Definition one_crtc (env : Env) : Env :=
  mkEnv (env_open env) (drmModeGetResources env) (drmModeGetConnector env)
    (drmModeGetEncoder env)
    (fun id => if id =? 50 then Some pipe_a else None)
    (allocFrameBuffer env) (drmModeAddFB env) (drmModeSetCrtc env)
    (getDrmConnector env) (getDrmEncoder env).

Definition topology : drmModeRes := mkRes [30; 31] [40; 41] [50; 51].

(** The same machine whose kernel lists the TMDS encoder first. *)
Definition topology_tmds_first : drmModeRes := mkRes [30; 31] [41; 40] [50; 51].

(** Both displays plugged in, the HDMI connector with its encoder
    attached. *)
Definition machine (handle addfb_ret setcrtc_ret : Z) : Env :=
  kernel topology (panel 1) (hdmi 1 41) handle addfb_ret setcrtc_ret.

(** Nothing plugged into the HDMI port. *)
Definition unplugged : Env := kernel topology (panel 1) (hdmi 2 0) 8 0 0.

(** A display on the HDMI port, no encoder attached to the connector, the
    TMDS encoder listed first. *)
Definition tmds_first : Env :=
  kernel topology_tmds_first (panel 1) (hdmi 1 0) 8 0 0.

(** An initialised object that has detected nothing yet. *)
Definition idle : Drm := mkDrm 3 true [zero_output; zero_output] [c_open].

(** The external slot showing 1080p from the buffer [h] registered as
    framebuffer [f]. *)
Definition external_slot (h f : Z) : DrmOutput :=
  mkOutput (Some (hdmi 1 41)) (Some tmds_encoder) (Some pipe_b) mode_1080p h f true.

(** The object after [initialize] and [detect] of the external device on
    [machine 7 0 0]: the preferred mode is committed from buffer 7. *)
Definition boot : list Call :=
  [c_open; c_drmModeGetResources;
   c_drmModeGetConnector 30; c_drmModeFreeConnector 30;
   c_drmModeGetConnector 31; c_drmModeGetEncoder 41; c_drmModeGetCrtc 51;
   c_allocFrameBuffer 1920 1080 7; c_drmModeAddFB 7 0;
   c_drmModeSetCrtc 51 107 31 0; c_drmModeFreeResources].

Definition running : Drm := mkDrm 3 true [zero_output; external_slot 7 107] boot.

(** The same object after a request for 720p whose new buffer 8 the
    kernel refused to register. *)
Definition stuck : Drm :=
  mkDrm 3 true [zero_output; external_slot 8 0]
    (boot ++ [c_allocFrameBuffer 1280 720 8; c_drmModeAddFB 8 (-22)]).

(** The machine of [machine 7 0 0] in a process that has no descriptor
    open: [open] hands out descriptor 0. *)
Definition machine_fd0 : Env :=
  let m := machine 7 0 0 in
  mkEnv 0 (drmModeGetResources m) (drmModeGetConnector m) (drmModeGetEncoder m)
    (drmModeGetCrtc m) (allocFrameBuffer m) (drmModeAddFB m) (drmModeSetCrtc m)
    (getDrmConnector m) (getDrmEncoder m).

(** The object after [initialize] and [detect] of the external device on
    [machine_fd0]: as [running], on descriptor 0. *)
Definition running_fd0 : Drm :=
  mkDrm 0 true [zero_output; external_slot 7 107] boot.

End Scenario.


(** * Properties *)

(** ** Slots and their reset *)

Lemma resetOutput_at_zero o : (resetOutput_at o).1 = zero_output.
Proof.
  destruct o as [k e c m h f b]. unfold resetOutput_at.
  destruct k, e, c; cbn;
    destruct (Z.eqb_spec f 0) as [->|?]; cbn;
    destruct (Z.eqb_spec h 0) as [->|?]; cbn; reflexivity.
Qed.

Lemma resetOutput_eq index s o :
  mOutputs s !! index = Some o ->
  resetOutput index s = Some (store index zero_output (resetOutput_at o).2 s).
Proof.
  intros H. unfold resetOutput. rewrite H. simpl.
  pose proof (resetOutput_at_zero o) as Hz.
  destruct (resetOutput_at o) as [o' tr']. simpl in *. by subst.
Qed.

Lemma resetOutput_Some index s s' :
  resetOutput index s = Some s' ->
  exists o, mOutputs s !! index = Some o /\
            s' = store index zero_output (resetOutput_at o).2 s.
Proof.
  intros H. destruct (mOutputs s !! index) as [o|] eqn:Ho.
  - exists o. split; [done|]. rewrite (resetOutput_eq index s o Ho) in H. congruence.
  - unfold resetOutput in H. by rewrite Ho in H.
Qed.

(** X26: a reset of a slot holding a framebuffer releases the pair last,
    the kernel framebuffer before the pixel buffer. *)
Lemma resetOutput_at_releases_framebuffer o :
  fbId o <> 0 -> fbHandle o <> 0 ->
  exists tr, (resetOutput_at o).2 =
             tr ++ [c_drmModeRmFB (fbId o); c_freeFrameBuffer (fbHandle o)].
Proof.
  destruct o as [k e c m h f b]. cbn. intros Hf Hh. unfold resetOutput_at.
  apply Z.eqb_neq in Hf, Hh.
  destruct k, e, c; cbn; rewrite Hf; cbn; rewrite Hh; cbn;
    match goal with
    | |- ex (fun tr => ?l = _) =>
        exists (take (length l - 2) l); reflexivity
    end.
Qed.

Lemma store_same index o s :
  mOutputs s !! index = Some o -> store index o [] s = s.
Proof.
  intros H. unfold store. rewrite list_insert_id, app_nil_r by done. by destruct s.
Qed.

Lemma store_Forall (P : DrmOutput -> Prop) index o tr s :
  P o -> Forall P (mOutputs s) -> Forall P (mOutputs (store index o tr s)).
Proof. intros Ho Hs. cbn. by apply Forall_insert. Qed.

Lemma resetOutput_Forall (P : DrmOutput -> Prop) index s s' :
  P zero_output -> resetOutput index s = Some s' ->
  Forall P (mOutputs s) -> Forall P (mOutputs s').
Proof.
  intros Hz H Hs. apply resetOutput_Some in H as (o & _ & ->).
  by apply store_Forall.
Qed.

Lemma resetOutputs_Forall (P : DrmOutput -> Prop) n : forall i s s',
  P zero_output -> resetOutputs i n s = Some s' ->
  Forall P (mOutputs s) -> Forall P (mOutputs s').
Proof.
  induction n as [|n IH]; intros i s s' Hz H Hs; cbn in H.
  - by simplify_eq.
  - destruct (resetOutput i s) as [s1|] eqn:E; [|done]. cbn in H.
    eapply IH; [done|exact H|]. by eapply resetOutput_Forall.
Qed.

Lemma getOutputIndex_range device :
  0 <= getOutputIndex device ->
  getOutputIndex device = OUTPUT_PRIMARY \/ getOutputIndex device = OUTPUT_EXTERNAL.
Proof.
  unfold getOutputIndex.
  destruct (device =? DEVICE_PRIMARY); [by left|].
  destruct (device =? DEVICE_EXTERNAL); [by right|]. lia.
Qed.

Lemma lookup_output device (s : Drm) :
  0 <= getOutputIndex device ->
  length (mOutputs s) = Z.to_nat OUTPUT_MAX ->
  (Z.to_nat (getOutputIndex device) < length (mOutputs s))%nat.
Proof.
  intros H Hlen. rewrite Hlen.
  destruct (getOutputIndex_range device H) as [-> | ->];
    unfold OUTPUT_PRIMARY, OUTPUT_EXTERNAL, OUTPUT_MAX; lia.
Qed.

Lemma queries_on_zero_slot device (s : Drm) :
  0 <= getOutputIndex device ->
  mOutputs s !! Z.to_nat (getOutputIndex device) = Some zero_output ->
  isConnected device s = Some (false, s) /\ getModeInfo device s = Some (None, s).
Proof.
  intros H Ho. unfold isConnected, getModeInfo.
  destruct (Z.ltb_spec (getOutputIndex device) 0); [lia|].
  by rewrite Ho.
Qed.

(** ** Construction, initialisation and teardown *)

(** C10: on a freshly constructed object, never initialised, the three
    query accessors answer failure ([false] for [isConnected]) for every
    device identifier; they are defined there (no handle is dereferenced)
    and leave the object as it is. *)
Theorem queries_before_initialize device :
  getModeInfo device Drm_new = Some (None, Drm_new) /\
  getPhysicalSize device Drm_new = Some (None, Drm_new) /\
  isConnected device Drm_new = Some (false, Drm_new).
Proof.
  unfold getModeInfo, getPhysicalSize, isConnected, getOutputIndex.
  destruct (device =? DEVICE_PRIMARY); [done|].
  destruct (device =? DEVICE_EXTERNAL); done.
Qed.

Lemma deinitialize_eq fd ini o0 o1 tr :
  deinitialize (mkDrm fd ini [o0; o1] tr) =
  Some (mkDrm 0 false [zero_output; zero_output]
          (((tr ++ (resetOutput_at o0).2) ++ (resetOutput_at o1).2) ++
           (if negb (fd =? 0) then [c_close fd] else []))).
Proof.
  unfold deinitialize. change (Z.to_nat OUTPUT_MAX) with 2%nat.
  cbn [resetOutputs].
  rewrite (resetOutput_eq 0 _ o0) by done. cbn [mbind option_bind].
  rewrite (resetOutput_eq 1 _ o1) by done. cbn [mbind option_bind].
  cbn [store mDrmFd mInitialized mOutputs calls].
  destruct (Z.eqb_spec fd 0) as [->|Hfd]; cbn; [|done].
  by rewrite app_nil_r.
Qed.

(** X28: [deinitialize] returns, and then every slot is not connected
    with an all-zero mode and no framebuffer id or handle, the descriptor
    field is 0, the descriptor having been closed as the last call if it
    was not 0; a second [deinitialize] changes nothing (and so calls
    nothing), and an [initialize] from there has the table all zero,
    whether or not the device can be opened. *)
Theorem deinitialize_clean s :
  length (mOutputs s) = Z.to_nat OUTPUT_MAX ->
  exists s',
    deinitialize s = Some s' /\
    length (mOutputs s') = Z.to_nat OUTPUT_MAX /\
    Forall slot_clean (mOutputs s') /\
    mDrmFd s' = 0 /\
    (mDrmFd s <> 0 -> exists tr, calls s' = tr ++ [c_close (mDrmFd s)]) /\
    mInitialized s' = false /\
    deinitialize s' = Some s' /\
    forall env, exists b s'',
      initialize env s' = Some (b, s'') /\
      mOutputs s'' = mOutputs s' /\
      mOutputs s'' = mOutputs Drm_new /\
      (b = true <-> 0 <= env_open env) /\
      (b = true -> mInitialized s'' = true /\ mDrmFd s'' = env_open env).
Proof.
  destruct s as [fd ini outs tr]. cbn [mOutputs mDrmFd]. intros Hlen.
  destruct outs as [|o0 [|o1 [|? ?]]]; try discriminate Hlen.
  eexists. split; [apply deinitialize_eq|]. cbn [mOutputs mDrmFd mInitialized calls].
  split; [done|]. split; [by repeat constructor|]. split; [done|].
  split.
  { intros Hfd. destruct (Z.eqb_spec fd 0); [done|]. by eexists. }
  split; [done|]. split.
  { rewrite deinitialize_eq. cbn. by rewrite !app_nil_r. }
  intros env. unfold initialize. cbn.
  destruct (Z.ltb_spec (env_open env) 0); eexists _, _; (split; [reflexivity|]); cbn;
    repeat split; try done; lia.
Qed.

Lemma deinitialize_clean_witness :
  length (mOutputs Scenario.running) = Z.to_nat OUTPUT_MAX /\
  exists s',
    deinitialize Scenario.running = Some s' /\
    Forall slot_clean (mOutputs s') /\
    mDrmFd s' = 0 /\
    deinitialize s' = Some s'.
Proof.
  split; [reflexivity|].
  destruct (deinitialize_clean Scenario.running eq_refl)
    as (s' & H1 & _ & H3 & H4 & _ & _ & H7 & _).
  exists s'. repeat split; assumption.
Defined.

(** Teardown of a running slot releases its framebuffer pair before the
    device is closed. *)
Example deinitialize_running :
  calls <$> deinitialize Scenario.running =
  Some (Scenario.boot ++
        [c_drmModeFreeConnector 31; c_drmModeFreeEncoder 41; c_drmModeFreeCrtc 51;
         c_drmModeRmFB 107; c_freeFrameBuffer 7; c_close 3]).
Proof. reflexivity. Qed.

(** No reset of a slot closes a descriptor. *)
Lemma resetOutput_at_no_close o fd : c_close fd ∉ (resetOutput_at o).2.
Proof.
  destruct o as [[c|] [e|] [k|] m h f cn]; unfold resetOutput_at; cbn;
    repeat case_match; simplify_eq/=;
    rewrite list_elem_of_In; cbn; intuition discriminate.
Qed.

(** C8: on a machine whose [open] hands out descriptor 0, [initialize]
    succeeds and [detect] brings up the external display.  The
    [deinitialize] of that object resets the slots and clears the flag,
    but its calls end with the release of the slot: [close] is not
    called and descriptor 0 stays open.  So it is for every object whose
    descriptor is 0: no [close] is among the calls [deinitialize]
    makes. *)
Theorem deinitialize_leaks_descriptor_zero :
  initialize Scenario.machine_fd0 Drm_new
    = Some (true, mkDrm 0 true [zero_output; zero_output] [c_open]) /\
  detect Scenario.machine_fd0 DEVICE_EXTERNAL
      (mkDrm 0 true [zero_output; zero_output] [c_open])
    = Some (true, Scenario.running_fd0) /\
  reachable Scenario.running_fd0 /\
  deinitialize Scenario.running_fd0
    = Some (mkDrm 0 false [zero_output; zero_output]
              (Scenario.boot ++
               [c_drmModeFreeConnector 31; c_drmModeFreeEncoder 41;
                c_drmModeFreeCrtc 51; c_drmModeRmFB 107; c_freeFrameBuffer 7])) /\
  forall s, length (mOutputs s) = Z.to_nat OUTPUT_MAX -> mDrmFd s = 0 ->
    exists s' tr,
      deinitialize s = Some s' /\
      calls s' = calls s ++ tr /\
      forall fd, c_close fd ∉ tr.
Proof.
  split; [reflexivity|]. split; [reflexivity|]. split.
  { eapply (reachable_run Scenario.machine_fd0 (op_detect DEVICE_EXTERNAL)
              (mkDrm 0 true [zero_output; zero_output] [c_open]) true);
      [|reflexivity].
    eapply (reachable_run Scenario.machine_fd0 op_initialize Drm_new true);
      [constructor|reflexivity]. }
  split; [reflexivity|].
  intros [fd ini outs tr]. cbn [mOutputs mDrmFd calls]. intros Hlen ->.
  destruct outs as [|o0 [|o1 [|? ?]]]; try discriminate Hlen.
  eexists _, _. split; [apply deinitialize_eq|].
  cbn [calls negb Z.eqb]. rewrite app_nil_r, <- app_assoc. split; [reflexivity|].
  intros fd. rewrite elem_of_app.
  intros [H|H]; by apply resetOutput_at_no_close in H.
Qed.

(** ** The mode commit *)

Lemma flags_subset_land requested current :
  flags_subset requested current <-> Z.land current requested = requested.
Proof.
  split.
  - intros H. apply Z.bits_inj'. intros n Hn. rewrite Z.land_spec.
    destruct (Z.testbit requested n) eqn:E.
    + rewrite (H n Hn E). reflexivity.
    + apply andb_false_r.
  - intros H n Hn E. rewrite <- H in E. rewrite Z.land_spec in E.
    apply andb_true_iff in E. tauto.
Qed.

(** [isSameDrmMode] is the equivalence the specification describes: same
    resolution, same refresh, requested flags among the base's. *)
Lemma isSameDrmMode_spec value base :
  isSameDrmMode value base = true <->
  hdisplay value = hdisplay base /\ vdisplay value = vdisplay base /\
  vrefresh value = vrefresh base /\ flags_subset (flags value) (flags base).
Proof.
  unfold isSameDrmMode. rewrite !andb_true_iff, !Z.eqb_eq, flags_subset_land.
  intuition congruence.
Qed.

(** C7: committing a mode with the resolution and the refresh of the
    slot's current mode, and flags among the current mode's, succeeds
    and changes nothing: the slot (framebuffer id, handle, mode) is as
    before and no call is made, so no buffer is allocated. *)
Theorem setDrmMode_same_mode_noop env index mode' s o :
  mOutputs s !! index = Some o ->
  hdisplay mode' = hdisplay (mode o) ->
  vdisplay mode' = vdisplay (mode o) ->
  vrefresh mode' = vrefresh (mode o) ->
  flags_subset (flags mode') (flags (mode o)) ->
  setDrmMode_index env index mode' s = Some (true, s).
Proof.
  intros Ho Hh Hv Hr Hf.
  assert (Hsame : isSameDrmMode mode' (mode o) = true) by by apply isSameDrmMode_spec.
  unfold setDrmMode_index. rewrite Ho. cbn.
  unfold setDrmMode_at. rewrite Hsame. cbn.
  by rewrite store_same.
Qed.

Lemma setDrmMode_same_mode_noop_witness :
  flags_subset 1 5 /\
  setDrmMode_index (Scenario.machine 8 0 0) 1 (mkMode 1920 1080 60 1 0) Scenario.running
  = Some (true, Scenario.running).
Proof.
  assert (H : flags_subset 1 5) by (apply flags_subset_land; reflexivity).
  split; [exact H|].
  apply (setDrmMode_same_mode_noop _ 1%nat _ _ (Scenario.external_slot 7 107));
    [reflexivity|reflexivity|reflexivity|reflexivity|exact H].
Defined.

(** The comparison is one-sided: a request with a flag the current mode
    lacks is a different mode and is committed. *)
Example setDrmMode_more_flags_commits :
  calls <$> (snd <$> setDrmMode_index (Scenario.machine 8 0 0) 1
                       (mkMode 1920 1080 60 7 0) Scenario.running)
  = Some (Scenario.boot ++
          [c_allocFrameBuffer 1920 1080 8; c_drmModeAddFB 8 0;
           c_drmModeSetCrtc 51 108 31 0; c_drmModeRmFB 107; c_freeFrameBuffer 7]).
Proof. reflexivity. Qed.

(** The three ways out of a commit that is not a no-op. *)

Lemma setDrmMode_at_alloc_failure env m o stride :
  isSameDrmMode m (mode o) = false ->
  allocFrameBuffer env (hdisplay m) (vdisplay m) = (0, stride) ->
  setDrmMode_at env m o =
  Some (false, set_fbHandle 0 (set_fbId 0 o),
        [c_allocFrameBuffer (hdisplay m) (vdisplay m) 0]).
Proof.
  intros Hs Ha. unfold setDrmMode_at. rewrite Hs.
  destruct o as [k e c cur h f b]; cbn.
  destruct (Z.eqb_spec f 0) as [->|?]; cbn;
    destruct (Z.eqb_spec h 0) as [->|?]; cbn;
    rewrite Ha; reflexivity.
Qed.

Lemma setDrmMode_at_addfb_failure env m o handle stride ret id :
  isSameDrmMode m (mode o) = false ->
  allocFrameBuffer env (hdisplay m) (vdisplay m) = (handle, stride) ->
  handle <> 0 ->
  drmModeAddFB env (hdisplay m) (vdisplay m) stride handle = (ret, id) ->
  ret <> 0 ->
  setDrmMode_at env m o =
  Some (false, set_fbHandle handle (set_fbId 0 o),
        [c_allocFrameBuffer (hdisplay m) (vdisplay m) handle;
         c_drmModeAddFB handle ret]).
Proof.
  intros Hs Ha Hh Hf Hr. unfold setDrmMode_at. rewrite Hs.
  destruct o as [k e c cur h f b]; cbn.
  destruct (Z.eqb_spec f 0) as [->|?]; cbn;
    destruct (Z.eqb_spec h 0) as [->|?]; cbn;
    rewrite Ha; cbn; destruct (Z.eqb_spec handle 0); try done;
    rewrite Hf; cbn; destruct (Z.eqb_spec ret 0); try done.
Qed.

(** X17: once the new buffer is allocated and registered, the CRTC bind
    is attempted and the previous pair is released after it, whatever
    the bind answered; the new pair is recorded either way, the mode
    only when the bind succeeded. *)
Lemma setDrmMode_at_bound env m o handle stride id c k :
  isSameDrmMode m (mode o) = false ->
  allocFrameBuffer env (hdisplay m) (vdisplay m) = (handle, stride) ->
  handle <> 0 ->
  drmModeAddFB env (hdisplay m) (vdisplay m) stride handle = (0, id) ->
  crtc o = Some c ->
  connector o = Some k ->
  let ret := drmModeSetCrtc env (Crtc.crtc_id c) id (connector_id k) m in
  setDrmMode_at env m o =
  Some (ret =? 0,
        (if ret =? 0 then set_mode m else λ o', o')
          (set_fbId id (set_fbHandle handle o)),
        [c_allocFrameBuffer (hdisplay m) (vdisplay m) handle;
         c_drmModeAddFB handle 0;
         c_drmModeSetCrtc (Crtc.crtc_id c) id (connector_id k) ret] ++
        release_previous o).
Proof.
  intros Hs Ha Hh Hf Hc Hk ret. unfold setDrmMode_at, release_previous. rewrite Hs.
  destruct o as [k' e c' cur h f b]; cbn in *. subst k' c'.
  apply Z.eqb_neq in Hh.
  destruct (f =? 0) eqn:Ef; destruct (h =? 0) eqn:Eh; cbn;
    rewrite ?Ef, ?Eh, Ha; cbn; rewrite ?Ef, ?Eh, Hh, Hf; cbn; fold ret;
    rewrite ?Ef, ?Eh; cbn;
    try (apply Z.eqb_eq in Ef; subst f); try (apply Z.eqb_eq in Eh; subst h);
    destruct (ret =? 0); reflexivity.
Qed.

(** A commit touches the mode and the framebuffer pair only, and never
    leaves a framebuffer id without a handle. *)
Lemma setDrmMode_at_fields env m o r o' tr' :
  setDrmMode_at env m o = Some (r, o', tr') ->
  connector o' = connector o /\ encoder o' = encoder o /\ crtc o' = crtc o /\
  connected o' = connected o /\
  ((fbId o <> 0 -> fbHandle o <> 0) -> fbId o' <> 0 -> fbHandle o' <> 0).
Proof.
  unfold setDrmMode_at. intros H.
  destruct o as [k e c cur h f b]; cbn in *.
  destruct c, k;
    repeat (case_match; simplify_eq/=); cbn; repeat split; try done; try lia.
Qed.

(** C1: the external slot holds framebuffer 107 on buffer 7 and is asked
    for another mode.  When the buffer manager has no buffer, and when
    the kernel refuses to register the new buffer, the commit returns
    [false] having called neither [drmModeRmFB 107] nor
    [freeFrameBuffer 7], and the slot no longer records the pair. *)
Theorem previous_framebuffer_leaks_when_commit_fails :
  setDrmMode_index (Scenario.machine 0 0 0) 1 Scenario.mode_720p Scenario.running
  = Some (false,
          mkDrm 3 true [zero_output; Scenario.external_slot 0 0]
            (Scenario.boot ++ [c_allocFrameBuffer 1280 720 0])) /\
  setDrmMode_index (Scenario.machine 8 (-22) 0) 1 Scenario.mode_720p Scenario.running
  = Some (false,
          mkDrm 3 true [zero_output; Scenario.external_slot 8 0]
            (Scenario.boot ++
             [c_allocFrameBuffer 1280 720 8; c_drmModeAddFB 8 (-22)])).
Proof. split; reflexivity. Qed.

(** Where the commit gets as far as the bind, the previous pair is
    released after it, also when the bind fails. *)
Example previous_framebuffer_released_after_bind :
  setDrmMode_index (Scenario.machine 8 0 (-1)) 1 Scenario.mode_720p Scenario.running
  = Some (false,
          mkDrm 3 true [zero_output; Scenario.external_slot 8 108]
            (Scenario.boot ++
             [c_allocFrameBuffer 1280 720 8; c_drmModeAddFB 8 0;
              c_drmModeSetCrtc 51 108 31 (-1);
              c_drmModeRmFB 107; c_freeFrameBuffer 7])).
Proof. reflexivity. Qed.

(** C5: the external slot shows 1080p from buffer 7; a request for 720p
    gets buffer 8 from the buffer manager and the kernel refuses to
    register it.  [setDrmMode] returns [false]; [freeFrameBuffer 8] is
    not called: the new buffer stays in the slot as its handle, without
    a framebuffer id, and buffer 7 is no longer recorded anywhere. *)
Theorem registration_failure_keeps_new_buffer :
  setDrmMode (Scenario.machine 8 (-22) 0) DEVICE_EXTERNAL Scenario.mode_720p
    Scenario.running
  = Some (false, Scenario.stuck) /\
  mOutputs Scenario.stuck !! 1%nat = Some (Scenario.external_slot 8 0) /\
  calls Scenario.stuck =
    calls Scenario.running ++ [c_allocFrameBuffer 1280 720 8; c_drmModeAddFB 8 (-22)].
Proof. repeat split. Qed.

(** Within [detect] the reset that follows a failed initial mode-set
    releases the buffer whose registration the kernel refused. *)
Example detect_releases_buffer_after_failed_registration :
  detect (Scenario.machine 7 (-22) 0) DEVICE_EXTERNAL Scenario.idle
  = Some (false,
          mkDrm 3 true [zero_output; zero_output]
            [c_open; c_drmModeGetResources;
             c_drmModeGetConnector 30; c_drmModeFreeConnector 30;
             c_drmModeGetConnector 31; c_drmModeGetEncoder 41; c_drmModeGetCrtc 51;
             c_allocFrameBuffer 1920 1080 7; c_drmModeAddFB 7 (-22);
             c_drmModeFreeConnector 31; c_drmModeFreeEncoder 41;
             c_drmModeFreeCrtc 51; c_freeFrameBuffer 7;
             c_drmModeFreeResources]).
Proof. reflexivity. Qed.

(** ** Mode selection *)

(** The two index functions of the rule are what their names say. *)

Lemma first_index_None P ms :
  first_index P ms = None <-> Forall (fun m => P m = false) ms.
Proof.
  induction ms as [|m0 ms IH]; cbn [first_index]; [by split|].
  destruct (P m0) eqn:E0.
  - split; [done|]. intros H. apply Forall_cons_1 in H as [? _]. congruence.
  - destruct (first_index P ms); cbn.
    + split; [done|]. intros H. apply Forall_cons_1 in H as [_ H]. by apply IH in H.
    + split; [|done]. intros _. constructor; [done|]. by apply IH.
Qed.

Lemma first_index_Some P ms : forall k,
  first_index P ms = Some k <->
  (exists m, ms !! k = Some m /\ P m = true) /\
  (forall j m, (j < k)%nat -> ms !! j = Some m -> P m = false).
Proof.
  induction ms as [|m0 ms IH]; intros k; cbn [first_index].
  - split; [done|]. by intros [[m [? _]] _].
  - destruct (P m0) eqn:E0.
    + split.
      * intros [= <-]. split; [by exists m0|]. intros j m Hj. lia.
      * intros [[m [Hm Hp]] Hbefore]. destruct k as [|k]; [done|].
        specialize (Hbefore O m0 ltac:(lia) eq_refl). congruence.
    + split.
      * destruct (first_index P ms) as [k'|]; [|done].
        intros [= <-]. destruct (proj1 (IH k') eq_refl) as [[m [Hm Hp]] Hbefore].
        split; [by exists m|]. intros [|j] m' Hj Hl; cbn in Hl; [congruence|].
        apply (Hbefore j); [lia|done].
      * intros [[m [Hm Hp]] Hbefore]. destruct k as [|k]; cbn in Hm; [congruence|].
        assert (first_index P ms = Some k) as ->; [|done].
        apply IH. split; [by exists m|]. intros j m' Hj Hl.
        apply (Hbefore (S j)); [lia|done].
Qed.

Lemma last_index_None P ms :
  last_index P ms = None <-> Forall (fun m => P m = false) ms.
Proof.
  induction ms as [|m0 ms IH]; cbn [last_index]; [by split|].
  destruct (last_index P ms).
  - split; [done|]. intros H. apply Forall_cons_1 in H as [_ H]. by apply IH in H.
  - destruct (P m0) eqn:E0; split; try done.
    + intros H. apply Forall_cons_1 in H as [? _]. congruence.
    + intros _. constructor; [done|]. by apply IH.
Qed.

Lemma last_index_Some P ms : forall k,
  last_index P ms = Some k <->
  (exists m, ms !! k = Some m /\ P m = true) /\
  (forall j m, (k < j)%nat -> ms !! j = Some m -> P m = false).
Proof.
  induction ms as [|m0 ms IH]; intros k; cbn [last_index].
  - split; [done|]. by intros [[m [? _]] _].
  - destruct (last_index P ms) as [p|] eqn:Ep.
    + split.
      * intros [= <-]. destruct (proj1 (IH p) eq_refl) as [[m [Hm Hp]] Hafter].
        split; [by exists m|]. intros [|j] m' Hj Hl; [lia|].
        apply (Hafter j); [lia|done].
      * intros [[m [Hm Hp]] Hafter]. destruct k as [|k].
        -- destruct (proj1 (IH p) eq_refl) as [[m' [Hm' Hp']] _].
           specialize (Hafter (S p) m' ltac:(lia) Hm'). congruence.
        -- f_equal.
           assert (Some p = Some k) as E; [|congruence].
           apply IH. split; [by exists m|]. intros j m' Hj Hl.
           apply (Hafter (S j)); [lia|done].
    + pose proof (proj1 (last_index_None P ms) Ep) as Hall. clear IH.
      destruct (P m0) eqn:E0.
      * split.
        -- intros [= <-]. split; [by exists m0|]. intros [|j] m' Hj Hl; [lia|].
           cbn in Hl. eapply Forall_lookup_1 in Hall; [|exact Hl]. done.
        -- intros [[m [Hm Hp]] _]. destruct k as [|k]; [done|]. cbn in Hm.
           eapply Forall_lookup_1 in Hall; [|exact Hm]. cbn in Hall. congruence.
      * split; [done|]. intros [[m [Hm Hp]] _]. destruct k as [|k]; cbn in Hm.
        -- congruence.
        -- eapply Forall_lookup_1 in Hall; [|exact Hm]. cbn in Hall. congruence.
Qed.

Lemma tie_break_rule_in_range same ms :
  ms <> [] -> (tie_break_rule same ms < length ms)%nat.
Proof.
  intros Hne. unfold tie_break_rule.
  destruct (first_index same ms) as [k|] eqn:Ek.
  - apply first_index_Some in Ek as [[m [Hm _]] _]. by eapply lookup_lt_Some.
  - destruct (last_index preferred ms) as [p|] eqn:Ep; cbn.
    + apply last_index_Some in Ep as [[m [Hm _]] _]. by eapply lookup_lt_Some.
    + destruct ms; [done|cbn; lia].
Qed.

(** The loops, from any position of the counter. *)

Lemma select_mode_spec same ms : forall i index,
  select_mode same i index ms =
  match first_index same ms with
  | Some k => (i + k)%nat
  | None => match last_index preferred ms with
            | Some p => (i + p)%nat
            | None => index
            end
  end.
Proof.
  induction ms as [|m ms IH]; intros i index; [done|].
  cbn [select_mode first_index last_index].
  destruct (same m) eqn:Es.
  - f_equal. lia.
  - rewrite IH. destruct (first_index same ms) as [k|]; cbn.
    + lia.
    + destruct (last_index preferred ms) as [p|]; [lia|].
      destruct (preferred m); [lia|done].
Qed.




(** The scenario of the specification: of A (1080p), B (1080p,
    preferred) and C (720p at 30 Hz), the initial mode-set takes B, a
    request for C takes C, and a request for 1080p at 60 Hz takes A, the
    first match. *)
Example tie_break_scenario :
  let A := mkMode 1920 1080 60 0 0 in
  let B := mkMode 1920 1080 60 0 8 in
  let C := mkMode 1280 720 30 0 0 in
  initDrmMode_loop 0 [A; B; C] = 1%nat /\
  select_mode (isSameDrmMode C) 0 0 [A; B; C] = 2%nat /\
  select_mode (isSameDrmMode B) 0 0 [A; B; C] = 0%nat /\
  select_mode (isSameDrmMode (mkMode 640 480 60 0 0)) 0 0 [A; B; C] = 1%nat.
Proof. repeat split. Qed.

(** The public entry points hand the mode the rule selects to the
    commit. *)
Lemma setDrmMode_selects_by_rule env value s o k :
  mInitialized s = true ->
  mOutputs s !! Z.to_nat OUTPUT_EXTERNAL = Some o ->
  connected o = true ->
  connector o = Some k ->
  modes k <> [] ->
  exists m,
    modes k !! tie_break_rule (isSameDrmMode value) (modes k) = Some m /\
    setDrmMode env DEVICE_EXTERNAL value s =
    setDrmMode_index env (Z.to_nat OUTPUT_EXTERNAL) m s.
Proof.
  intros Hi Ho Hc Hk Hne.
  destruct (lookup_lt_is_Some_2 _ _ (tie_break_rule_in_range (isSameDrmMode value) _ Hne))
    as [m Hm].
  exists m. split; [done|].
  unfold setDrmMode, not_init. rewrite Hi. cbn [negb].
  change (getOutputIndex DEVICE_EXTERNAL) with OUTPUT_EXTERNAL.
  change (DEVICE_EXTERNAL =? DEVICE_EXTERNAL) with true.
  change (OUTPUT_EXTERNAL <? 0) with false. cbn [negb].
  rewrite Ho. cbn [mbind option_bind]. rewrite Hc, Hk. cbn [negb mbind option_bind].
  destruct (Z.leb_spec (count_modes k) 0) as [Hle|_].
  { unfold count_modes in Hle. destruct (modes k); [done|cbn in Hle; lia]. }
  replace (select_mode (isSameDrmMode value) 0 0 (modes k))
    with (tie_break_rule (isSameDrmMode value) (modes k))
    by (rewrite select_mode_spec; reflexivity).
  by rewrite Hm.
Qed.

Lemma setRefreshRate_selects_by_rule env hz s o k :
  mInitialized s = true ->
  mOutputs s !! Z.to_nat OUTPUT_EXTERNAL = Some o ->
  connected o = true ->
  connector o = Some k ->
  modes k <> [] ->
  exists m,
    modes k !! tie_break_rule (sameRefresh (mode o) hz) (modes k) = Some m /\
    setRefreshRate env DEVICE_EXTERNAL hz s =
    setDrmMode_index env (Z.to_nat OUTPUT_EXTERNAL) m s.
Proof.
  intros Hi Ho Hc Hk Hne.
  destruct (lookup_lt_is_Some_2 _ _
              (tie_break_rule_in_range (sameRefresh (mode o) hz) _ Hne)) as [m Hm].
  exists m. split; [done|].
  unfold setRefreshRate, not_init. rewrite Hi. cbn [negb].
  change (getOutputIndex DEVICE_EXTERNAL) with OUTPUT_EXTERNAL.
  change (DEVICE_EXTERNAL =? DEVICE_EXTERNAL) with true.
  change (OUTPUT_EXTERNAL <? 0) with false. cbn [negb].
  rewrite Ho. cbn [mbind option_bind]. rewrite Hc, Hk. cbn [negb mbind option_bind].
  destruct (Z.leb_spec (count_modes k) 0) as [Hle|_].
  { unfold count_modes in Hle. destruct (modes k); [done|cbn in Hle; lia]. }
  replace (select_mode (sameRefresh (mode o) hz) 0 0 (modes k))
    with (tie_break_rule (sameRefresh (mode o) hz) (modes k))
    by (rewrite select_mode_spec; reflexivity).
  by rewrite Hm.
Qed.

(** C9: for a device other than the external one, [setDrmMode] and
    [setRefreshRate] return [false] and leave the object as it is, no
    call made; so a request that selects or commits a mode is one for
    the external device. *)
Theorem explicit_requests_external_only env device value hz s :
  device <> DEVICE_EXTERNAL ->
  setDrmMode env device value s = Some (false, s) /\
  setRefreshRate env device hz s = Some (false, s).
Proof.
  intros Hd. unfold setDrmMode, setRefreshRate.
  destruct (not_init s); [done|].
  destruct (Z.eqb_spec device DEVICE_EXTERNAL); done.
Qed.

Lemma explicit_requests_external_only_witness :
  DEVICE_PRIMARY <> DEVICE_EXTERNAL /\
  setDrmMode (Scenario.machine 8 0 0) DEVICE_PRIMARY Scenario.mode_720p Scenario.running
  = Some (false, Scenario.running) /\
  setRefreshRate (Scenario.machine 8 0 0) DEVICE_PRIMARY 30 Scenario.running
  = Some (false, Scenario.running).
Proof.
  assert (H : DEVICE_PRIMARY <> DEVICE_EXTERNAL) by (unfold DEVICE_PRIMARY, DEVICE_EXTERNAL; lia).
  split; [exact H|].
  exact (explicit_requests_external_only _ DEVICE_PRIMARY Scenario.mode_720p 30
           Scenario.running H).
Defined.

(** ** Detection *)

(** The parts of [detect] leave alone what they do not resolve. *)

Lemma resolve_encoder_fields env device res i k o o' tr :
  resolve_encoder env device res i k o = Some (o', tr) ->
  connector o' = connector o /\ connected o' = connected o /\
  crtc o' = crtc o /\ mode o' = mode o /\ same_framebuffer o o'.
Proof.
  unfold resolve_encoder, same_framebuffer. intros H.
  destruct o as [k0 e c cur h f b]; cbn in *.
  repeat (case_match; simplify_option_eq); done.
Qed.

Lemma resolve_crtc_fields env res e o o' tr :
  resolve_crtc env res e o = (o', tr) ->
  connector o' = connector o /\ connected o' = connected o /\
  encoder o' = encoder o /\ mode o' = mode o /\ same_framebuffer o o'.
Proof.
  unfold resolve_crtc, same_framebuffer. intros H.
  destruct o as [k0 e0 c cur h f b]; cbn in *.
  repeat (case_match; simplify_eq/=); done.
Qed.

Lemma initDrmMode_at_fields env o r o' tr :
  initDrmMode_at env o = Some (r, o', tr) ->
  connector o' = connector o /\ encoder o' = encoder o /\ crtc o' = crtc o /\
  connected o' = connected o /\
  ((fbId o <> 0 -> fbHandle o <> 0) -> fbId o' <> 0 -> fbHandle o' <> 0).
Proof.
  unfold initDrmMode_at. intros H.
  destruct (connector o) as [k|] eqn:Hk; [|done]. cbn in H.
  destruct (count_modes k <=? 0); [by simplify_eq|].
  destruct (modes k !! _) as [m|]; [|done]. cbn in H.
  apply setDrmMode_at_fields in H. by rewrite Hk in H.
Qed.

Lemma weak_inv_zero : weak_inv zero_output.
Proof. split; [discriminate|done]. Qed.

Lemma detect_connected_weak_inv env device res i k o ret o' tr :
  detect_connected env device res i k o = Some (ret, o', tr) ->
  (fbId o <> 0 -> fbHandle o <> 0) ->
  connector o' = Some k /\ weak_inv o'.
Proof.
  unfold detect_connected. intros H Hfb.
  destruct (resolve_encoder _ _ _ _ _ _) as [[o1 tr1]|] eqn:E1; [|done]. cbn in H.
  apply resolve_encoder_fields in E1 as (Hk1 & Hc1 & _ & _ & Hf1 & Hh1). cbn in *.
  assert (Hinv1 : connector o1 = Some k /\ weak_inv o1).
  { split; [done|]. split; [by rewrite Hk1|]. by rewrite Hf1, Hh1. }
  destruct (encoder o1) as [e|]; [|by simplify_eq].
  destruct (resolve_crtc env res e o1) as [o2 tr2] eqn:E2.
  apply resolve_crtc_fields in E2 as (Hk2 & Hc2 & _ & _ & Hf2 & Hh2).
  assert (Hinv2 : connector o2 = Some k /\ weak_inv o2).
  { destruct Hinv1 as [? [? ?]]. split; [congruence|].
    split; [by rewrite Hk2, Hk1|]. by rewrite Hf2, Hh2. }
  destruct (crtc o2) as [c|]; [|by simplify_eq].
  destruct (negb (Crtc.mode_valid c =? 0)).
  - simplify_eq. destruct Hinv2 as [? [? ?]]. by repeat split.
  - destruct (initDrmMode_at env o2) as [[[r3 o3] tr3]|] eqn:E3; [|done].
    cbn in H. simplify_eq.
    apply initDrmMode_at_fields in E3 as (Hk3 & _ & _ & Hc3 & Hfb3).
    destruct Hinv2 as [? [? ?]]. split; [congruence|].
    split; [by rewrite Hk3, Hk2, Hk1|]. by apply Hfb3.
Qed.

Lemma connector_scan_weak_inv env device res cs : forall i o ret o' tr,
  connector_scan env device res i cs o = Some (ret, o', tr) ->
  weak_inv o -> weak_inv o'.
Proof.
  induction cs as [|ci cs IH]; intros i o ret o' tr H Hinv; cbn in H.
  - by simplify_eq.
  - destruct (ci =? 0); [by eapply IH|].
    destruct (drmModeGetConnector env ci) as [k|].
    + destruct (negb (connector_type k =? _)).
      * destruct (connector_scan _ _ _ _ cs o) as [[[r1 o1] tr1]|] eqn:E; [|done].
        cbn in H. simplify_eq. by eapply IH.
      * destruct (negb (connection k =? _)); [by simplify_eq|].
        destruct (detect_connected _ _ _ _ _ _) as [[[r1 o1] tr1]|] eqn:E; [|done].
        cbn in H. simplify_eq.
        eapply detect_connected_weak_inv in E; [tauto|apply Hinv].
    + destruct (connector_scan _ _ _ _ cs o) as [[[r1 o1] tr1]|] eqn:E; [|done].
      cbn in H. simplify_eq. by eapply IH.
Qed.

Lemma detect_weak_inv env device s ret s' :
  detect env device s = Some (ret, s') ->
  Forall weak_inv (mOutputs s) -> Forall weak_inv (mOutputs s').
Proof.
  unfold detect. intros H Hs.
  destruct (not_init s); [by simplify_eq|].
  destruct (getOutputIndex device <? 0); [by simplify_eq|].
  destruct (resetOutput _ s) as [s1|] eqn:E1; [|done]. cbn in H.
  pose proof (resetOutput_Forall weak_inv _ _ _ weak_inv_zero E1 Hs) as Hs1.
  destruct (drmModeGetResources env) as [res|]; [|by simplify_eq].
  cbn [log mOutputs calls] in H.
  destruct (mOutputs s1 !! _) as [o|] eqn:Ho; [|done]. cbn in H.
  destruct (connector_scan _ _ _ _ _ _) as [[[r o'] tr]|] eqn:E2; [|done].
  cbn in H.
  assert (Ho' : weak_inv o').
  { eapply connector_scan_weak_inv; [exact E2|].
    eapply Forall_lookup_1; [exact Hs1|exact Ho]. }
  destruct (negb r).
  - destruct (resetOutput _ (store _ _ _ _)) as [s2|] eqn:E3; [|done].
    cbn in H. simplify_eq.
    cbn. eapply (resetOutput_Forall weak_inv); [apply weak_inv_zero|exact E3|].
    cbn. by apply Forall_insert.
  - cbn in H. simplify_eq. cbn. by apply Forall_insert.
Qed.

(** The outcome of [detect] from the outcome of its connector loop. *)
Lemma detect_eq env device s o0 res r o' tr :
  mInitialized s = true ->
  0 <= getOutputIndex device ->
  mOutputs s !! Z.to_nat (getOutputIndex device) = Some o0 ->
  drmModeGetResources env = Some res ->
  connector_scan env device res 0 (connectors res) zero_output = Some (r, o', tr) ->
  exists tr',
    detect env device s =
    Some (if r then true
          else is_null (connector o') && negb (getOutputIndex device =? OUTPUT_PRIMARY),
          mkDrm (mDrmFd s) true
            (<[Z.to_nat (getOutputIndex device) := if r then o' else zero_output]>
               (mOutputs s))
            tr').
Proof.
  intros Hi Hidx Ho Hres Hscan. unfold detect, not_init. rewrite Hi. cbn [negb].
  destruct (Z.ltb_spec (getOutputIndex device) 0) as [?|_]; [lia|].
  set (index := Z.to_nat (getOutputIndex device)) in *.
  assert (Hlt : (index < length (mOutputs s))%nat) by by eapply lookup_lt_Some.
  rewrite (resetOutput_eq _ _ _ Ho). cbn [mbind option_bind].
  rewrite Hres. cbn [log store mOutputs calls mDrmFd mInitialized].
  rewrite list_lookup_insert_eq by done. cbn [mbind option_bind].
  rewrite Hscan. cbn [mbind option_bind].
  destruct r; cbn [negb mbind option_bind].
  - eexists. unfold log, store. cbn. by rewrite Hi, list_insert_insert_eq.
  - rewrite (resetOutput_eq _ _ o')
      by (cbn; apply list_lookup_insert_eq; by rewrite length_insert).
    unfold store, log; cbn. rewrite !list_insert_insert_eq, Hi. eexists.
    by destruct (is_null (connector o') && _).
Qed.

Lemma resolve_encoder_resolved env device res i k o r :
  encoder o = None ->
  resolved_encoder env device res i k = Some r ->
  exists tr, resolve_encoder env device res i k o = Some (set_encoder r o, tr).
Proof.
  unfold resolved_encoder, resolve_encoder. intros Ho H.
  destruct o as [k0 e0 c cur h f b]; cbn in *. subst e0.
  destruct (negb (encoder_id k =? 0)) eqn:Ek.
  - apply negb_true_iff in Ek. rewrite Ek in H. cbn.
    destruct (drmModeGetEncoder env (encoder_id k)) as [e|]; cbn.
    + simplify_eq. by eexists.
    + destruct (encoder_scan _ _ _ _ _) as [[e tr]|]; [|done].
      cbn in *. simplify_eq. destruct r; by eexists.
  - apply negb_false_iff in Ek. rewrite Ek in H. cbn.
    destruct (encoder_scan _ _ _ _ _) as [[e tr]|]; [|done].
    cbn in *. simplify_eq. destruct r; by eexists.
Qed.

Lemma resolve_crtc_resolved env res e o :
  crtc o = None ->
  exists tr, resolve_crtc env res e o = (set_crtc (resolved_crtc env res e) o, tr).
Proof.
  unfold resolved_crtc, resolve_crtc. intros Ho.
  destruct o as [k0 e0 c cur h f b]; cbn in *. subst c.
  destruct (Encoder.crtc_id e =? 0); cbn.
  - destruct (crtc_scan env (crtcs res)) as [[c|] tr]; by eexists.
  - destruct (drmModeGetCrtc env (Encoder.crtc_id e)) as [c|]; cbn; [by eexists|].
    destruct (crtc_scan env (crtcs res)) as [[c|] tr]; by eexists.
Qed.

Lemma detect_connected_no_encoder env device res i k :
  resolved_encoder env device res i k = Some None ->
  exists o' tr,
    detect_connected env device res i k zero_output = Some (false, o', tr) /\
    connector o' = Some k.
Proof.
  intros H. unfold detect_connected.
  eapply resolve_encoder_resolved in H as [tr ->]; [|done].
  cbn. by eexists _, _.
Qed.

Lemma detect_connected_no_crtc env device res i k e :
  resolved_encoder env device res i k = Some (Some e) ->
  resolved_crtc env res e = None ->
  exists o' tr,
    detect_connected env device res i k zero_output = Some (false, o', tr) /\
    connector o' = Some k.
Proof.
  intros H Hc. unfold detect_connected.
  eapply resolve_encoder_resolved in H as [tr ->]; [|done].
  cbn [mbind option_bind encoder set_encoder].
  edestruct resolve_crtc_resolved as [tr2 ->]; [|rewrite Hc]; [done|].
  cbn. by eexists _, _.
Qed.

(** The connector loop stops at the matching connector. *)
Lemma connector_scan_matching env device res cs : forall i o,
  match matching_connector env device cs with
  | None => exists tr, connector_scan env device res i cs o = Some (false, o, tr)
  | Some (j, k) =>
      if negb (connection k =? DRM_MODE_CONNECTED)
      then exists tr, connector_scan env device res i cs o = Some (true, o, tr)
      else forall ret o' tr',
             detect_connected env device res (i + j) k o = Some (ret, o', tr') ->
             exists tr, connector_scan env device res i cs o = Some (ret, o', tr)
  end.
Proof.
  induction cs as [|ci cs IH]; intros i o; cbn [matching_connector connector_scan].
  - by eexists.
  - assert (Hnext :
      forall pre,
      match prod_map S id <$> matching_connector env device cs with
      | None => exists tr,
          (connector_scan env device res (S i) cs o
             ≫= λ '(ret, o1, tr1), Some (ret, o1, pre ++ tr1)) = Some (false, o, tr)
      | Some (j, k) =>
          if negb (connection k =? DRM_MODE_CONNECTED)
          then exists tr,
            (connector_scan env device res (S i) cs o
               ≫= λ '(ret, o1, tr1), Some (ret, o1, pre ++ tr1)) = Some (true, o, tr)
          else forall ret o' tr',
            detect_connected env device res (i + j) k o = Some (ret, o', tr') ->
            exists tr,
              (connector_scan env device res (S i) cs o
                 ≫= λ '(ret, o1, tr1), Some (ret, o1, pre ++ tr1)) = Some (ret, o', tr)
      end).
    { intros pre. specialize (IH (S i) o).
      destruct (matching_connector env device cs) as [[j k]|]; cbn.
      - destruct (negb (connection k =? DRM_MODE_CONNECTED)).
        + destruct IH as [tr ->]. by eexists.
        + intros ret o' tr' Hd. replace (i + S j)%nat with (S i + j)%nat in Hd by lia.
          destruct (IH _ _ _ Hd) as [tr ->]. by eexists.
      - destruct IH as [tr ->]. by eexists. }
    destruct (ci =? 0).
    { specialize (Hnext []).
      destruct (connector_scan env device res (S i) cs o) as [[[? ?] ?]|];
        destruct (prod_map S id <$> matching_connector env device cs) as [[j k]|];
        try destruct (negb (connection k =? DRM_MODE_CONNECTED)); exact Hnext. }
    destruct (drmModeGetConnector env ci) as [k|].
    + destruct (connector_type k =? getDrmConnector env device); cbn [negb].
      * destruct (negb (connection k =? DRM_MODE_CONNECTED)); [by eexists|].
        intros ret o' tr' Hd. rewrite Nat.add_0_r in Hd. rewrite Hd. by eexists.
      * exact (Hnext [c_drmModeGetConnector ci; c_drmModeFreeConnector (connector_id k)]).
    + exact (Hnext [c_drmModeGetConnector ci]).
Qed.

(** C6, as the code has it: an initialised object detects a device of
    its own (the kernel supplying its resources) and meets an obstacle.
    No connector of the device's type: success for the external slot,
    failure for the primary one.  The connector is not connected:
    success for either slot.  The connector is connected but no encoder,
    or no CRTC, is resolved: failure for either slot.  In every case the
    slot is left all zero, so that [isConnected] answers [false] and
    [getModeInfo] fails afterwards. *)
Theorem detect_obstacle_policy env device s res ob :
  mInitialized s = true ->
  0 <= getOutputIndex device ->
  length (mOutputs s) = Z.to_nat OUTPUT_MAX ->
  drmModeGetResources env = Some res ->
  obstacle env device res = Some ob ->
  exists s',
    detect env device s = Some (verdict ob device, s') /\
    mOutputs s' = <[Z.to_nat (getOutputIndex device) := zero_output]> (mOutputs s) /\
    isConnected device s' = Some (false, s') /\
    getModeInfo device s' = Some (None, s').
Proof.
  intros Hi Hidx Hlen Hres Hob.
  pose proof (lookup_output device s Hidx Hlen) as Hlt.
  destruct (lookup_lt_is_Some_2 _ _ Hlt) as [o0 Ho0].
  assert (Hscan : exists r o' tr,
    connector_scan env device res 0 (connectors res) zero_output = Some (r, o', tr) /\
    (if r then true
     else is_null (connector o') && negb (getOutputIndex device =? OUTPUT_PRIMARY))
    = verdict ob device /\
    (if r then o' else zero_output) = zero_output).
  { unfold obstacle in Hob.
    pose proof (connector_scan_matching env device res (connectors res) O zero_output) as Hm.
    destruct (matching_connector env device (connectors res)) as [[j k]|].
    - destruct (negb (connection k =? DRM_MODE_CONNECTED)).
      + destruct Hm as [tr Hm]. simplify_eq. by exists true, zero_output, tr.
      + destruct (resolved_encoder env device res j k) as [[e|]|] eqn:Ee; [| |done].
        * destruct (resolved_crtc env res e) eqn:Ec; [done|]. simplify_eq.
          destruct (detect_connected_no_crtc _ _ _ _ _ _ Ee Ec) as (o' & tr' & Hd & Hk).
          destruct (Hm _ _ _ Hd) as [tr Hs]. exists false, o', tr.
          split; [done|]. by rewrite Hk.
        * simplify_eq.
          destruct (detect_connected_no_encoder _ _ _ _ _ Ee) as (o' & tr' & Hd & Hk).
          destruct (Hm _ _ _ Hd) as [tr Hs]. exists false, o', tr.
          split; [done|]. by rewrite Hk.
    - destruct Hm as [tr Hm]. simplify_eq. by exists false, zero_output, tr. }
  destruct Hscan as (r & o' & tr & Hscan & Hv & Hslot).
  destruct (detect_eq env device s o0 res r o' tr Hi Hidx Ho0 Hres Hscan) as [tr' Hd].
  rewrite Hv, Hslot in Hd. eexists. split; [exact Hd|]. split; [done|].
  apply queries_on_zero_slot; [done|]. cbn. by apply list_lookup_insert_eq.
Qed.

(** The scenario of the specification: nothing is plugged into the HDMI
    port. *)
Lemma detect_obstacle_policy_witness :
  mInitialized Scenario.idle = true /\
  0 <= getOutputIndex DEVICE_EXTERNAL /\
  length (mOutputs Scenario.idle) = Z.to_nat OUTPUT_MAX /\
  drmModeGetResources Scenario.unplugged = Some Scenario.topology /\
  obstacle Scenario.unplugged DEVICE_EXTERNAL Scenario.topology = Some not_connected /\
  exists s',
    detect Scenario.unplugged DEVICE_EXTERNAL Scenario.idle = Some (true, s') /\
    isConnected DEVICE_EXTERNAL s' = Some (false, s') /\
    getModeInfo DEVICE_EXTERNAL s' = Some (None, s').
Proof.
  assert (H2 : 0 <= getOutputIndex DEVICE_EXTERNAL) by (vm_compute; discriminate).
  split; [reflexivity|]. split; [exact H2|]. split; [reflexivity|].
  split; [reflexivity|]. split; [reflexivity|].
  destruct (detect_obstacle_policy Scenario.unplugged DEVICE_EXTERNAL Scenario.idle
              Scenario.topology not_connected eq_refl H2 eq_refl eq_refl eq_refl)
    as (s' & Hd & _ & Hc & Hm).
  exists s'. repeat split; assumption.
Defined.

(** C6 as stated fails twice: with the panel unplugged, detection of the
    primary device succeeds; with a display on the HDMI port and no
    encoder for it (no encoder attached, none of the TMDS type listed),
    detection of the external device fails. *)
Lemma detect_policy_counterexample :
  fst <$> detect
    (Scenario.kernel Scenario.topology (Scenario.panel 2) (Scenario.hdmi 1 41) 8 0 0)
    DEVICE_PRIMARY Scenario.idle = Some true /\
  fst <$> detect
    (Scenario.kernel (mkRes [31] [40] [50; 51]) (Scenario.panel 1) (Scenario.hdmi 1 0)
       8 0 0)
    DEVICE_EXTERNAL Scenario.idle = Some false.
Proof. split; reflexivity. Qed.

(** The four obstacles, met in turn by the external device. *)
Example detect_external_obstacles :
  let env res k := Scenario.kernel res (Scenario.panel 1) k 8 0 0 in
  let outcome env := fst <$> detect env DEVICE_EXTERNAL Scenario.idle in
  outcome (env (mkRes [30] [40; 41] [50; 51]) (Scenario.hdmi 1 41)) = Some true /\
  outcome Scenario.unplugged = Some true /\
  outcome (env (mkRes [31] [40] [50; 51]) (Scenario.hdmi 1 0)) = Some false /\
  outcome (Scenario.one_crtc (env (mkRes [30; 31] [40; 41] [50]) (Scenario.hdmi 1 41)))
    = Some false.
Proof. repeat split. Qed.

(** Without obstacle: the kernel's mode is adopted where the CRTC has
    one (the panel), the preferred mode is committed where it has none
    (the HDMI display). *)
Example detect_resolved :
  (snd <$> detect (Scenario.machine 7 0 0) DEVICE_PRIMARY Scenario.idle)
    ≫= (λ s, mOutputs s !! 0%nat)
  = Some (mkOutput (Some (Scenario.panel 1)) (Some Scenario.dsi_encoder)
            (Some Scenario.pipe_a) Scenario.mode_panel 0 0 true) /\
  detect (Scenario.machine 7 0 0) DEVICE_EXTERNAL Scenario.idle
  = Some (true, Scenario.running).
Proof. repeat split. Qed.

(** X25: the encoder loop fetches one entry only, the one at the
    position of the connector. *)
Lemma encoder_scan_fetches_one_entry env device res i js : forall r tr id,
  encoder_scan env device res i js = Some (r, tr) ->
  c_drmModeGetEncoder id ∈ tr ->
  encoders res !! i = Some id.
Proof.
  induction js as [|ej js IH]; intros r tr id H Hin; cbn in H.
  - simplify_eq. by apply elem_of_nil in Hin.
  - destruct (ej =? 0); [by eapply IH|].
    destruct (encoders res !! i) as [id'|]; [|done]. cbn in H.
    destruct (drmModeGetEncoder env id') as [e|].
    + destruct (Encoder.encoder_type e =? getDrmEncoder env device).
      * simplify_eq. apply list_elem_of_singleton in Hin. congruence.
      * destruct (encoder_scan env device res i js) as [[r1 tr1]|] eqn:E; [|done].
        cbn in H. simplify_eq.
        apply elem_of_cons in Hin as [Hin|Hin]; [congruence|].
        apply elem_of_cons in Hin as [Hin|Hin]; [done|].
        by eapply IH.
    + destruct (encoder_scan env device res i js) as [[r1 tr1]|] eqn:E; [|done].
      cbn in H. simplify_eq.
      apply elem_of_cons in Hin as [Hin|Hin]; [congruence|].
      by eapply IH.
Qed.

(** C4: the kernel lists the TMDS encoder first and the DSI encoder
    second; the HDMI connector is the second connector and has no
    encoder attached.  Scanning the encoder list in order finds the TMDS
    encoder.  The loop of [detect] fetches the entry at the connector's
    position, the DSI encoder, at every round, finds nothing, and the
    detection of the connected display fails. *)
Theorem encoder_fallback_indexed_by_connector_position :
  encoder_scan_in_order Scenario.tmds_first DEVICE_EXTERNAL
    (encoders Scenario.topology_tmds_first)
  = Some Scenario.tmds_encoder /\
  encoder_scan Scenario.tmds_first DEVICE_EXTERNAL Scenario.topology_tmds_first 1
    (encoders Scenario.topology_tmds_first)
  = Some (None, [c_drmModeGetEncoder 40; c_drmModeFreeEncoder 40;
                 c_drmModeGetEncoder 40; c_drmModeFreeEncoder 40]) /\
  detect Scenario.tmds_first DEVICE_EXTERNAL Scenario.idle
  = Some (false,
          mkDrm 3 true [zero_output; zero_output]
            [c_open; c_drmModeGetResources;
             c_drmModeGetConnector 30; c_drmModeFreeConnector 30;
             c_drmModeGetConnector 31;
             c_drmModeGetEncoder 40; c_drmModeFreeEncoder 40;
             c_drmModeGetEncoder 40; c_drmModeFreeEncoder 40;
             c_drmModeFreeConnector 31; c_drmModeFreeResources]).
Proof. repeat split. Qed.

(** With the encoders listed the other way round the same loop succeeds,
    and with fewer encoders than connectors it reads past the list. *)
Example encoder_fallback_by_luck :
  let outcome res :=
    fst <$> detect (Scenario.kernel res (Scenario.panel 1) (Scenario.hdmi 1 0) 8 0 0)
              DEVICE_EXTERNAL Scenario.idle in
  outcome Scenario.topology = Some true /\
  outcome (mkRes [30; 31] [41] [50; 51]) = None.
Proof. repeat split. Qed.

(** ** Reachable states *)

Lemma setDrmMode_index_weak_inv env index m s ret s' :
  setDrmMode_index env index m s = Some (ret, s') ->
  Forall weak_inv (mOutputs s) -> Forall weak_inv (mOutputs s').
Proof.
  unfold setDrmMode_index. intros H Hs.
  destruct (mOutputs s !! index) as [o|] eqn:Ho; [|done]. cbn in H.
  destruct (setDrmMode_at env m o) as [[[r o'] tr]|] eqn:E; [|done].
  cbn in H. simplify_eq. apply store_Forall; [|done].
  apply setDrmMode_at_fields in E as (Hk & _ & _ & Hc & Hfb).
  destruct (Forall_lookup_1 _ _ _ _ Hs Ho) as [H1 H2].
  split; [by rewrite Hk, Hc|by apply Hfb].
Qed.

Lemma run_weak_inv env op s ret s' :
  run env op s = Some (ret, s') ->
  Forall weak_inv (mOutputs s) -> Forall weak_inv (mOutputs s').
Proof.
  destruct op as [| |device|device value|device hz]; cbn; intros H Hs.
  - unfold initialize in H. destruct (mInitialized s); [by simplify_eq|].
    cbn in H. destruct (env_open env <? 0); simplify_eq; [done|].
    cbn. repeat constructor; apply weak_inv_zero.
  - destruct (deinitialize s) as [s1|] eqn:E; [|done]. cbn in H. simplify_eq.
    unfold deinitialize in E.
    destruct (resetOutputs _ _ s) as [s2|] eqn:E2; [|done]. cbn in E.
    apply (resetOutputs_Forall weak_inv) in E2; [|apply weak_inv_zero|done].
    simplify_eq. by destruct (negb _).
  - by eapply detect_weak_inv.
  - unfold setDrmMode in H.
    repeat (case_match; simplify_option_eq; try done).
    by eapply setDrmMode_index_weak_inv.
  - unfold setRefreshRate in H.
    repeat (case_match; simplify_option_eq; try done).
    by eapply setDrmMode_index_weak_inv.
Qed.

(** In every reachable state a connected slot has its connector, and a
    slot with a framebuffer id has a framebuffer handle. *)
Lemma reachable_weak_inv s : reachable s -> Forall weak_inv (mOutputs s).
Proof.
  induction 1 as [|env op s ret s' _ IH Hrun].
  - repeat constructor; apply weak_inv_zero.
  - by eapply run_weak_inv.
Qed.

(** The states of the scenario are reachable. *)
Lemma running_reachable : reachable Scenario.running.
Proof.
  eapply (reachable_run (Scenario.machine 7 0 0) (op_detect DEVICE_EXTERNAL)
            Scenario.idle true); [|reflexivity].
  eapply (reachable_run (Scenario.machine 7 0 0) op_initialize Drm_new true);
    [constructor|reflexivity].
Qed.

(** C2: the object is initialised and detects a display on the HDMI
    port, committing 1080p from buffer 7; it is then asked for 720p, the
    buffer manager hands out buffer 8 and the kernel refuses to register
    it.  The state reached has a slot with a framebuffer handle and no
    framebuffer id. *)
Theorem failed_registration_unpairs_framebuffer :
  reachable Scenario.stuck /\
  mOutputs Scenario.stuck !! 1%nat = Some (Scenario.external_slot 8 0) /\
  fbHandle (Scenario.external_slot 8 0) = 8 /\
  fbId (Scenario.external_slot 8 0) = 0 /\
  ~ Drm_inv Scenario.stuck.
Proof.
  split.
  { eapply (reachable_run (Scenario.machine 8 (-22) 0)
              (op_setDrmMode DEVICE_EXTERNAL Scenario.mode_720p) Scenario.running false);
      [apply running_reachable|reflexivity]. }
  split; [done|]. split; [done|]. split; [done|].
  unfold Drm_inv. intros H.
  apply Forall_cons_1 in H as [_ H]. apply Forall_cons_1 in H as [[_ [_ H]] _].
  by apply H.
Qed.

(** * Further properties *)

(** ** The life cycle and the device descriptor *)

(** X1: once [initialize] has succeeded, a further [initialize] succeeds
    and changes nothing: the device is not opened again and the table is
    not cleared. *)
Theorem initialize_idempotent env env' s s1 :
  initialize env s = Some (true, s1) ->
  initialize env' s1 = Some (true, s1) /\ mInitialized s1 = true.
Proof.
  unfold initialize. intros H.
  destruct (mInitialized s) eqn:Hi.
  - simplify_eq. by rewrite Hi.
  - cbn in H. destruct (env_open env <? 0); simplify_eq. done.
Qed.

Lemma initialize_idempotent_witness :
  initialize (Scenario.machine 7 0 0) Drm_new = Some (true, Scenario.idle) /\
  initialize Scenario.unplugged Scenario.idle = Some (true, Scenario.idle) /\
  mInitialized Scenario.idle = true.
Proof.
  split; [reflexivity|].
  exact (initialize_idempotent (Scenario.machine 7 0 0) Scenario.unplugged
           Drm_new Scenario.idle eq_refl).
Defined.

(** X2: when the device cannot be opened, [initialize] fails and leaves
    the object not initialised with its table as it was, but it keeps
    the negative descriptor: [detect] goes on failing, and the next
    [deinitialize] passes that descriptor to [close]. *)
Theorem initialize_failure_keeps_descriptor env s :
  mInitialized s = false ->
  env_open env < 0 ->
  length (mOutputs s) = Z.to_nat OUTPUT_MAX ->
  exists s1 s2 tr,
    initialize env s = Some (false, s1) /\
    mInitialized s1 = false /\
    mOutputs s1 = mOutputs s /\
    getDrmFd s1 = env_open env /\
    (forall env' device, detect env' device s1 = Some (false, s1)) /\
    deinitialize s1 = Some s2 /\
    calls s2 = tr ++ [c_close (env_open env)].
Proof.
  intros Hi Hfd Hlen. destruct s as [fd ini outs tr0]. cbn in *. subst ini.
  destruct outs as [|o0 [|o1 [|? ?]]]; try discriminate Hlen.
  unfold initialize. cbn.
  destruct (Z.ltb_spec (env_open env) 0) as [_|?]; [|lia].
  eexists _, _, _. split; [reflexivity|]. cbn.
  split; [done|]. split; [done|]. split; [done|]. split; [done|].
  rewrite deinitialize_eq.
  destruct (Z.eqb_spec (env_open env) 0) as [?|_]; [lia|]. cbn.
  split; reflexivity.
Qed.

Lemma initialize_failure_keeps_descriptor_witness :
  mInitialized Drm_new = false /\
  -1 < 0 /\
  length (mOutputs Drm_new) = Z.to_nat OUTPUT_MAX /\
  exists s1 s2 tr,
    initialize (mkEnv (-1) None (fun _ => None) (fun _ => None) (fun _ => None)
                  (fun _ _ => (0, 0)) (fun _ _ _ _ => (0, 0)) (fun _ _ _ _ => 0)
                  (fun _ => 0) (fun _ => 0)) Drm_new = Some (false, s1) /\
    getDrmFd s1 = -1 /\
    deinitialize s1 = Some s2 /\
    calls s2 = tr ++ [c_close (-1)].
Proof.
  split; [reflexivity|]. split; [lia|]. split; [reflexivity|].
  destruct (initialize_failure_keeps_descriptor
              (mkEnv (-1) None (fun _ => None) (fun _ => None) (fun _ => None)
                 (fun _ _ => (0, 0)) (fun _ _ _ _ => (0, 0)) (fun _ _ _ _ => 0)
                 (fun _ => 0) (fun _ => 0))
              Drm_new eq_refl ltac:(cbn; lia) eq_refl)
    as (s1 & s2 & tr & H1 & _ & _ & H4 & _ & H6 & H7).
  exists s1, s2, tr. repeat split; assumption.
Defined.

(** X3: the ioctl helpers test the descriptor, not the initialisation
    flag, and take a descriptor of 0 for a missing one.  After a
    successful [initialize] a write ioctl succeeds exactly when the
    descriptor opened is not 0, the payload is not null, the size is not
    0 and the kernel answers 0; the kernel is called, once and with the
    descriptor opened, exactly when the first three hold. *)
Theorem writeIoctl_after_initialize env drmCommandWrite cmd data size s s1 :
  mInitialized s = false ->
  initialize env s = Some (true, s1) ->
  ((writeIoctl drmCommandWrite cmd data size s1).1 = true <->
   env_open env <> 0 /\ size <> 0 /\
   exists d, data = Some d /\ drmCommandWrite (env_open env) cmd d size = 0) /\
  ((writeIoctl drmCommandWrite cmd data size s1).2 =
   if bool_decide (env_open env <> 0 /\ size <> 0 /\ is_Some data)
   then [io_drmCommandWrite (env_open env) cmd size] else []).
Proof.
  intros Hi H. unfold initialize in H. rewrite Hi in H. cbn in H.
  destruct (Z.ltb_spec (env_open env) 0) as [?|Hge]; simplify_eq.
  unfold writeIoctl. cbn.
  destruct (Z.leb_spec (env_open env) 0) as [Hle|Hgt].
  - assert (env_open env = 0) as E by lia. cbn. split.
    + split; [done|]. intros [? _]. done.
    + rewrite bool_decide_eq_false_2; [done|]. intros [? _]. done.
  - destruct data as [d|]; cbn.
    + destruct (Z.eqb_spec size 0) as [->|Hsz]; cbn.
      * split; [split; [done|by intros (_ & ? & _)]|].
        rewrite bool_decide_eq_false_2; [done|]. by intros (_ & ? & _).
      * split.
        -- rewrite Z.eqb_eq. split.
           ++ intros E. split; [lia|]. split; [done|]. by exists d.
           ++ intros (_ & _ & d' & [= <-] & E). done.
        -- rewrite bool_decide_eq_true_2; [done|].
           split; [lia|]. split; [done|]. by eexists.
    + split.
      * split; [done|]. by intros (_ & _ & d & ? & _).
      * rewrite bool_decide_eq_false_2; [done|]. intros (_ & _ & [d ?]). done.
Qed.

Lemma writeIoctl_after_initialize_witness :
  mInitialized Drm_new = false /\
  initialize (Scenario.machine 7 0 0) Drm_new = Some (true, Scenario.idle) /\
  writeIoctl (fun _ _ _ _ => 0) 64 (Some [1; 2]) 2 Scenario.idle
  = (true, [io_drmCommandWrite 3 64 2]).
Proof.
  split; [reflexivity|]. split; [reflexivity|].
  destruct (writeIoctl_after_initialize (Scenario.machine 7 0 0) (fun _ _ _ _ => 0)
              64 (Some [1; 2]) 2 Drm_new Scenario.idle eq_refl eq_refl) as [H1 H2].
  destruct (writeIoctl (fun _ _ _ _ => 0) 64 (Some [1; 2]) 2 Scenario.idle)
    as [b l] eqn:E.
  cbn in H1, H2. f_equal.
  - apply H1. split; [discriminate|]. split; [discriminate|]. by eexists.
  - exact H2.
Defined.

(** X27: a device opened as descriptor 0 is never closed: [initialize]
    succeeds, and the [deinitialize] that follows, taking 0 for "no
    descriptor", makes no call at all. *)
Theorem descriptor_zero_never_closed env s :
  mInitialized s = false ->
  env_open env = 0 ->
  length (mOutputs s) = Z.to_nat OUTPUT_MAX ->
  exists s1 s2,
    initialize env s = Some (true, s1) /\
    deinitialize s1 = Some s2 /\
    calls s2 = calls s ++ [c_open].
Proof.
  intros Hi Hfd Hlen. unfold initialize. rewrite Hi, Hfd. cbn.
  eexists _, _. split; [reflexivity|].
  change (Z.to_nat OUTPUT_MAX) with 2%nat. cbn [replicate].
  rewrite deinitialize_eq. split; [reflexivity|]. cbn. by rewrite !app_nil_r.
Qed.

Lemma descriptor_zero_never_closed_witness :
  exists s1 s2,
    initialize (mkEnv 0 None (fun _ => None) (fun _ => None) (fun _ => None)
                  (fun _ _ => (0, 0)) (fun _ _ _ _ => (0, 0)) (fun _ _ _ _ => 0)
                  (fun _ => 0) (fun _ => 0)) Drm_new = Some (true, s1) /\
    deinitialize s1 = Some s2 /\
    calls s2 = [c_open].
Proof.
  exact (descriptor_zero_never_closed
           (mkEnv 0 None (fun _ => None) (fun _ => None) (fun _ => None)
              (fun _ _ => (0, 0)) (fun _ _ _ _ => (0, 0)) (fun _ _ _ _ => 0)
              (fun _ => 0) (fun _ => 0))
           Drm_new eq_refl eq_refl eq_refl).
Defined.

(** X4: the read-write ioctl helper under the same conditions: it
    succeeds exactly when the descriptor opened is not 0, the payload is
    not null, the size is not 0 and the kernel answers 0; the payload
    handed back is the kernel's when the kernel was called and the
    caller's own otherwise. *)
Theorem writeReadIoctl_after_initialize env drmCommandWriteRead cmd data size s s1 :
  mInitialized s = false ->
  initialize env s = Some (true, s1) ->
  match data with
  | Some d =>
      if bool_decide (env_open env <> 0 /\ size <> 0)
      then writeReadIoctl drmCommandWriteRead cmd data size s1 =
           ((drmCommandWriteRead (env_open env) cmd d size).1 =? 0,
            Some (drmCommandWriteRead (env_open env) cmd d size).2,
            [io_drmCommandWriteRead (env_open env) cmd size])
      else writeReadIoctl drmCommandWriteRead cmd data size s1 = (false, data, [])
  | None => writeReadIoctl drmCommandWriteRead cmd data size s1 = (false, None, [])
  end.
Proof.
  intros Hi H. unfold initialize in H. rewrite Hi in H. cbn in H.
  destruct (Z.ltb_spec (env_open env) 0) as [?|Hge]; simplify_eq.
  unfold writeReadIoctl. cbn.
  destruct data as [d|].
  - destruct (Z.leb_spec (env_open env) 0) as [Hle|Hgt].
    + rewrite bool_decide_eq_false_2; [done|]. intros [? _]. lia.
    + destruct (Z.eqb_spec size 0) as [->|Hsz].
      * rewrite bool_decide_eq_false_2; [done|]. by intros [_ ?].
      * rewrite bool_decide_eq_true_2 by (split; [lia|done]).
        by destruct (drmCommandWriteRead _ _ _ _).
  - by destruct (env_open env <=? 0).
Qed.

Lemma writeReadIoctl_after_initialize_witness :
  mInitialized Drm_new = false /\
  initialize (Scenario.machine 7 0 0) Drm_new = Some (true, Scenario.idle) /\
  writeReadIoctl (fun _ _ d _ => (0, rev d)) 64 (Some [1; 2]) 2 Scenario.idle
  = (true, Some [2; 1], [io_drmCommandWriteRead 3 64 2]).
Proof.
  split; [reflexivity|]. split; [reflexivity|].
  exact (writeReadIoctl_after_initialize (Scenario.machine 7 0 0)
           (fun _ _ d _ => (0, rev d)) 64 (Some [1; 2]) 2 Drm_new Scenario.idle
           eq_refl eq_refl).
Defined.

(** X5: after [deinitialize] nothing works until the next [initialize]:
    [detect], [setDrmMode] and [setRefreshRate] return [false] and both
    ioctl helpers fail without calling the kernel, all leaving the
    object as it is; the descriptor reads 0 and no device is
    connected. *)
Theorem nothing_works_after_deinitialize s :
  length (mOutputs s) = Z.to_nat OUTPUT_MAX ->
  exists s',
    deinitialize s = Some s' /\
    getDrmFd s' = 0 /\
    forall env device value hz f g cmd data size,
      detect env device s' = Some (false, s') /\
      setDrmMode env device value s' = Some (false, s') /\
      setRefreshRate env device hz s' = Some (false, s') /\
      isConnected device s' = Some (false, s') /\
      writeIoctl f cmd data size s' = (false, []) /\
      writeReadIoctl g cmd data size s' = (false, data, []).
Proof.
  destruct s as [fd ini outs tr]. cbn [mOutputs]. intros Hlen.
  destruct outs as [|o0 [|o1 [|? ?]]]; try discriminate Hlen.
  eexists. split; [apply deinitialize_eq|]. split; [done|].
  intros env device value hz f g cmd data size.
  repeat split; try done.
  unfold isConnected, getOutputIndex.
  destruct (device =? DEVICE_PRIMARY); [done|].
  by destruct (device =? DEVICE_EXTERNAL).
Qed.

Lemma nothing_works_after_deinitialize_witness :
  length (mOutputs Scenario.running) = Z.to_nat OUTPUT_MAX /\
  exists s',
    deinitialize Scenario.running = Some s' /\
    detect (Scenario.machine 7 0 0) DEVICE_EXTERNAL s' = Some (false, s') /\
    writeIoctl (fun _ _ _ _ => 0) 64 (Some [1]) 1 s' = (false, []).
Proof.
  split; [reflexivity|].
  destruct (nothing_works_after_deinitialize Scenario.running eq_refl)
    as (s' & H1 & _ & H).
  exists s'. split; [exact H1|].
  destruct (H (Scenario.machine 7 0 0) DEVICE_EXTERNAL zero_mode 0
              (fun _ _ _ _ => 0) (fun _ _ d _ => (0, d)) 64 (Some [1]) 1)
    as (Hd & _ & _ & _ & Hw & _).
  split; assumption.
Defined.

(** ** Device identifiers *)

(** X6: for an identifier that is neither the primary nor the external
    device, in any state, the three accessors answer failure and
    [detect] returns [false]; nothing is changed and nothing is
    called. *)
Theorem invalid_device_rejected env device s :
  device <> DEVICE_PRIMARY ->
  device <> DEVICE_EXTERNAL ->
  getModeInfo device s = Some (None, s) /\
  getPhysicalSize device s = Some (None, s) /\
  isConnected device s = Some (false, s) /\
  detect env device s = Some (false, s).
Proof.
  intros Hp He.
  assert (Hidx : getOutputIndex device = -1).
  { unfold getOutputIndex.
    destruct (Z.eqb_spec device DEVICE_PRIMARY); [done|].
    by destruct (Z.eqb_spec device DEVICE_EXTERNAL). }
  unfold getModeInfo, getPhysicalSize, isConnected, detect. rewrite Hidx. cbn.
  repeat split. by destruct (not_init s).
Qed.

Lemma invalid_device_rejected_witness :
  99 <> DEVICE_PRIMARY /\
  99 <> DEVICE_EXTERNAL /\
  getModeInfo 99 Scenario.running = Some (None, Scenario.running) /\
  getPhysicalSize 99 Scenario.running = Some (None, Scenario.running) /\
  isConnected 99 Scenario.running = Some (false, Scenario.running) /\
  detect (Scenario.machine 7 0 0) 99 Scenario.running = Some (false, Scenario.running).
Proof.
  assert (H1 : 99 <> DEVICE_PRIMARY) by discriminate.
  assert (H2 : 99 <> DEVICE_EXTERNAL) by discriminate.
  split; [exact H1|]. split; [exact H2|].
  exact (invalid_device_rejected (Scenario.machine 7 0 0) 99 Scenario.running H1 H2).
Defined.

(** ** Resetting a slot *)

(** X7: a reset is idempotent: resetting a slot that has just been reset
    changes nothing, so nothing is released a second time. *)
Theorem resetOutput_idempotent index s s1 :
  resetOutput index s = Some s1 ->
  resetOutput index s1 = Some s1.
Proof.
  intros H. apply resetOutput_Some in H as (o & Ho & ->).
  assert (Hlt : (index < length (mOutputs s))%nat) by by eapply lookup_lt_Some.
  rewrite (resetOutput_eq _ _ zero_output) by (cbn; by apply list_lookup_insert_eq).
  unfold store. cbn. by rewrite list_insert_insert_eq, app_nil_r.
Qed.

Lemma resetOutput_idempotent_witness :
  exists s1,
    resetOutput 1 Scenario.running = Some s1 /\
    calls s1 = Scenario.boot ++
      [c_drmModeFreeConnector 31; c_drmModeFreeEncoder 41; c_drmModeFreeCrtc 51;
       c_drmModeRmFB 107; c_freeFrameBuffer 7] /\
    resetOutput 1 s1 = Some s1.
Proof.
  eexists. split; [reflexivity|]. split; [reflexivity|].
  exact (resetOutput_idempotent 1 Scenario.running _ eq_refl).
Defined.

(** ** Detection *)

(** What a successful pass through the body of the connector loop
    leaves in the slot. *)
Lemma detect_connected_true env device res i k o o' tr :
  detect_connected env device res i k o = Some (true, o', tr) ->
  connected o' = true /\ connector o' = Some k /\
  is_Some (encoder o') /\ is_Some (crtc o').
Proof.
  unfold detect_connected. intros H.
  destruct (resolve_encoder _ _ _ _ _ _) as [[o1 tr1]|] eqn:E1; [|done]. cbn in H.
  apply resolve_encoder_fields in E1 as (Hk1 & Hc1 & _ & _ & _). cbn in *.
  destruct (encoder o1) as [e|] eqn:He1; [|by simplify_eq].
  destruct (resolve_crtc env res e o1) as [o2 tr2] eqn:E2.
  apply resolve_crtc_fields in E2 as (Hk2 & Hc2 & He2 & _ & _).
  destruct (crtc o2) as [c|] eqn:Hc; [|by simplify_eq].
  assert (H2 : connected o2 = true /\ connector o2 = Some k /\
               is_Some (encoder o2) /\ is_Some (crtc o2)).
  { repeat split; [congruence|congruence|rewrite He2, He1; by eexists|by eexists]. }
  destruct (negb (Crtc.mode_valid c =? 0)).
  - simplify_eq. exact H2.
  - destruct (initDrmMode_at env o2) as [[[r3 o3] tr3]|] eqn:E3; [|done].
    cbn in H. simplify_eq.
    apply initDrmMode_at_fields in E3 as (Hk3 & He3 & Hc3 & Hcn3 & _).
    destruct H2 as (? & ? & ? & ?).
    repeat split; [congruence|congruence|by rewrite He3|by rewrite Hc3].
Qed.

(** The converse of [connector_scan_matching]: what an outcome of the
    connector loop says about the topology. *)
Lemma connector_scan_inv env device res cs : forall i o r o' tr,
  connector_scan env device res i cs o = Some (r, o', tr) ->
  match matching_connector env device cs with
  | None => r = false /\ o' = o
  | Some (j, k) =>
      if negb (connection k =? DRM_MODE_CONNECTED) then r = true /\ o' = o
      else exists tr', detect_connected env device res (i + j) k o = Some (r, o', tr')
  end.
Proof.
  induction cs as [|ci cs IH]; intros i o r o' tr H;
    cbn [matching_connector connector_scan] in *.
  - by simplify_eq.
  - assert (Hnext : forall r1 o1 tr1,
      connector_scan env device res (S i) cs o = Some (r1, o1, tr1) ->
      match prod_map S id <$> matching_connector env device cs with
      | None => r1 = false /\ o1 = o
      | Some (j, k) =>
          if negb (connection k =? DRM_MODE_CONNECTED) then r1 = true /\ o1 = o
          else exists tr', detect_connected env device res (i + j) k o = Some (r1, o1, tr')
      end).
    { intros r1 o1 tr1 H1. specialize (IH _ _ _ _ _ H1).
      destruct (matching_connector env device cs) as [[j k]|]; cbn; [|done].
      destruct (negb (connection k =? DRM_MODE_CONNECTED)); [done|].
      by replace (i + S j)%nat with (S i + j)%nat by lia. }
    destruct (ci =? 0); [by eapply Hnext|].
    destruct (drmModeGetConnector env ci) as [k|].
    + destruct (connector_type k =? getDrmConnector env device); cbn [negb] in *.
      * destruct (negb (connection k =? DRM_MODE_CONNECTED)); [by simplify_eq|].
        destruct (detect_connected env device res i k o) as [[[r1 o1] tr1]|] eqn:E;
          [|done].
        cbn in H. simplify_eq. rewrite Nat.add_0_r, E. by eexists.
      * destruct (connector_scan env device res (S i) cs o) as [[[r1 o1] tr1]|] eqn:E;
          [|done].
        cbn in H. simplify_eq. by eapply Hnext.
    + destruct (connector_scan env device res (S i) cs o) as [[[r1 o1] tr1]|] eqn:E;
        [|done].
      cbn in H. simplify_eq. by eapply Hnext.
Qed.

(** A run of [detect] on an initialised object, for a device of its
    own, taken apart. *)
Lemma detect_inv env device s r s' :
  mInitialized s = true ->
  0 <= getOutputIndex device ->
  detect env device s = Some (r, s') ->
  exists o0,
    mOutputs s !! Z.to_nat (getOutputIndex device) = Some o0 /\
    mDrmFd s' = mDrmFd s /\ mInitialized s' = true /\
    match drmModeGetResources env with
    | None =>
        r = false /\
        mOutputs s' = <[Z.to_nat (getOutputIndex device) := zero_output]> (mOutputs s) /\
        calls s' = calls s ++ (resetOutput_at o0).2 ++ [c_drmModeGetResources]
    | Some res =>
        exists r0 o' tr,
          connector_scan env device res 0 (connectors res) zero_output
            = Some (r0, o', tr) /\
          r = (if r0 then true
               else is_null (connector o') &&
                    negb (getOutputIndex device =? OUTPUT_PRIMARY)) /\
          mOutputs s' =
            <[Z.to_nat (getOutputIndex device) := if r0 then o' else zero_output]>
              (mOutputs s) /\
          exists tr',
            calls s' = calls s ++ (resetOutput_at o0).2 ++
                       [c_drmModeGetResources] ++ tr' ++ [c_drmModeFreeResources]
    end.
Proof.
  intros Hi Hidx H. unfold detect, not_init in H. rewrite Hi in H. cbn [negb] in H.
  destruct (Z.ltb_spec (getOutputIndex device) 0) as [?|_]; [lia|].
  set (index := Z.to_nat (getOutputIndex device)) in *.
  destruct (mOutputs s !! index) as [o0|] eqn:Ho.
  2:{ unfold resetOutput in H. by rewrite Ho in H. }
  assert (Hlt : (index < length (mOutputs s))%nat) by by eapply lookup_lt_Some.
  exists o0. split; [done|].
  rewrite (resetOutput_eq _ _ _ Ho) in H. cbn [mbind option_bind] in H.
  destruct (drmModeGetResources env) as [res|].
  - cbn [log store mOutputs calls mDrmFd mInitialized] in H.
    rewrite list_lookup_insert_eq in H by done. cbn [mbind option_bind] in H.
    destruct (connector_scan env device res 0 (connectors res) zero_output)
      as [[[r0 o'] tr]|] eqn:Hscan; [|done].
    cbn [mbind option_bind] in H.
    destruct r0; cbn [negb mbind option_bind] in H.
    + unfold log, store in H. cbn in H. simplify_eq. cbn.
      rewrite Hi, list_insert_insert_eq. repeat split.
      exists true, o', tr. repeat split. exists tr.
      by rewrite <- !app_assoc.
    + rewrite (resetOutput_eq _ _ o') in H
        by (cbn; apply list_lookup_insert_eq; by rewrite length_insert).
      unfold store, log in H; cbn in H. simplify_eq. cbn.
      rewrite !list_insert_insert_eq, Hi. repeat split.
      exists false, o', tr. repeat split.
      { by destruct (is_null (connector o') && _). }
      exists (tr ++ (resetOutput_at o').2). by rewrite <- !app_assoc.
  - unfold log, store in H. cbn in H. simplify_eq. cbn.
    rewrite Hi. repeat split. by rewrite <- app_assoc.
Qed.

(** X8: when the kernel cannot supply its resources, [detect] returns
    [false], but the slot has been reset by then: what it held has been
    released and the display it described is gone. *)
Theorem detect_resets_before_query env device s o :
  mInitialized s = true ->
  0 <= getOutputIndex device ->
  mOutputs s !! Z.to_nat (getOutputIndex device) = Some o ->
  drmModeGetResources env = None ->
  detect env device s =
  Some (false,
        mkDrm (mDrmFd s) true
          (<[Z.to_nat (getOutputIndex device) := zero_output]> (mOutputs s))
          (calls s ++ (resetOutput_at o).2 ++ [c_drmModeGetResources])).
Proof.
  intros Hi Hidx Ho Hres. unfold detect, not_init. rewrite Hi. cbn [negb].
  destruct (Z.ltb_spec (getOutputIndex device) 0) as [?|_]; [lia|].
  rewrite (resetOutput_eq _ _ _ Ho). cbn [mbind option_bind]. rewrite Hres.
  unfold log, store. cbn. by rewrite Hi, <- app_assoc.
Qed.

Lemma detect_resets_before_query_witness :
  mInitialized Scenario.running = true /\
  0 <= getOutputIndex DEVICE_EXTERNAL /\
  mOutputs Scenario.running !! Z.to_nat (getOutputIndex DEVICE_EXTERNAL)
    = Some (Scenario.external_slot 7 107) /\
  detect (mkEnv 3 None (fun _ => None) (fun _ => None) (fun _ => None)
            (fun _ _ => (0, 0)) (fun _ _ _ _ => (0, 0)) (fun _ _ _ _ => 0)
            (fun _ => 0) (fun _ => 0))
    DEVICE_EXTERNAL Scenario.running
  = Some (false,
          mkDrm 3 true [zero_output; zero_output]
            (Scenario.boot ++
             [c_drmModeFreeConnector 31; c_drmModeFreeEncoder 41;
              c_drmModeFreeCrtc 51; c_drmModeRmFB 107; c_freeFrameBuffer 7;
              c_drmModeGetResources])).
Proof.
  assert (H2 : 0 <= getOutputIndex DEVICE_EXTERNAL) by (vm_compute; discriminate).
  split; [reflexivity|]. split; [exact H2|]. split; [reflexivity|].
  exact (detect_resets_before_query
           (mkEnv 3 None (fun _ => None) (fun _ => None) (fun _ => None)
              (fun _ _ => (0, 0)) (fun _ _ _ _ => (0, 0)) (fun _ _ _ _ => 0)
              (fun _ => 0) (fun _ => 0))
           DEVICE_EXTERNAL Scenario.running (Scenario.external_slot 7 107)
           eq_refl H2 eq_refl eq_refl).
Defined.

(** X9: [detect] touches the slot of its device only: the descriptor,
    the initialisation flag, the size of the table and every other slot
    are as before, and the calls made so far stay on record. *)
Theorem detect_frame env device s r s' :
  detect env device s = Some (r, s') ->
  mDrmFd s' = mDrmFd s /\
  mInitialized s' = mInitialized s /\
  length (mOutputs s') = length (mOutputs s) /\
  (forall j, j <> Z.to_nat (getOutputIndex device) ->
             mOutputs s' !! j = mOutputs s !! j) /\
  exists tr, calls s' = calls s ++ tr.
Proof.
  intros H.
  destruct (mInitialized s) eqn:Hi.
  2:{ unfold detect, not_init in H. rewrite Hi in H. cbn in H. simplify_eq.
      rewrite Hi. repeat split. exists []. by rewrite app_nil_r. }
  destruct (Z.ltb_spec (getOutputIndex device) 0) as [Hneg|Hidx].
  { unfold detect, not_init in H. rewrite Hi in H. cbn [negb] in H.
    destruct (Z.ltb_spec (getOutputIndex device) 0); [|lia]. simplify_eq.
    rewrite Hi. repeat split. exists []. by rewrite app_nil_r. }
  destruct (detect_inv _ _ _ _ _ Hi Hidx H) as (o0 & Ho & Hfd & Hini & Hrest).
  split; [done|]. split; [done|].
  destruct (drmModeGetResources env) as [res|].
  - destruct Hrest as (r0 & o' & tr & _ & _ & Hout & tr' & Hcalls).
    rewrite Hout, length_insert. split; [done|]. split.
    + intros j Hj. by rewrite list_lookup_insert_ne.
    + eexists. exact Hcalls.
  - destruct Hrest as (_ & Hout & Hcalls).
    rewrite Hout, length_insert. split; [done|]. split.
    + intros j Hj. by rewrite list_lookup_insert_ne.
    + eexists. exact Hcalls.
Qed.

Lemma detect_frame_witness :
  exists s',
    detect Scenario.unplugged DEVICE_PRIMARY Scenario.running = Some (true, s') /\
    mOutputs s' !! 0%nat
      = Some (mkOutput (Some (Scenario.panel 1)) (Some Scenario.dsi_encoder)
                (Some Scenario.pipe_a) Scenario.mode_panel 0 0 true) /\
    mOutputs s' !! 1%nat = mOutputs Scenario.running !! 1%nat /\
    mDrmFd s' = mDrmFd Scenario.running.
Proof.
  eexists. split; [reflexivity|]. split; [reflexivity|].
  destruct (detect_frame Scenario.unplugged DEVICE_PRIMARY Scenario.running true _
              eq_refl) as (Hfd & _ & _ & Hj & _).
  split; [|exact Hfd]. apply Hj. vm_compute. discriminate.
Defined.

(** The slot [detect] leaves for its device. *)
Lemma detect_slot env device s r s' :
  mInitialized s = true ->
  0 <= getOutputIndex device ->
  detect env device s = Some (r, s') ->
  exists o',
    (Z.to_nat (getOutputIndex device) < length (mOutputs s))%nat /\
    mOutputs s' = <[Z.to_nat (getOutputIndex device) := o']> (mOutputs s) /\
    (r = false -> o' = zero_output) /\
    (o' = zero_output \/
     r = true /\ connected o' = true /\
     is_Some (connector o') /\ is_Some (encoder o') /\ is_Some (crtc o')).
Proof.
  intros Hi Hidx H.
  destruct (detect_inv _ _ _ _ _ Hi Hidx H) as (o0 & Ho & _ & _ & Hrest).
  assert (Hlt : (Z.to_nat (getOutputIndex device) < length (mOutputs s))%nat)
    by by eapply lookup_lt_Some.
  destruct (drmModeGetResources env) as [res|].
  - destruct Hrest as (r0 & o' & tr & Hscan & -> & Hout & _).
    eexists. split; [done|]. split; [exact Hout|].
    destruct r0; [|by split; [|left]].
    split; [done|].
    apply connector_scan_inv in Hscan.
    destruct (matching_connector env device (connectors res)) as [[j k]|];
      [|by destruct Hscan].
    destruct (negb (connection k =? DRM_MODE_CONNECTED)).
    + destruct Hscan as [_ ->]. by left.
    + destruct Hscan as [tr' Hd]. apply detect_connected_true in Hd as (? & Hk & ? & ?).
      right. split; [done|]. split; [done|]. split; [|done]. rewrite Hk. by eexists.
  - destruct Hrest as (-> & Hout & _).
    eexists. split; [done|]. split; [exact Hout|]. by split; [|left].
Qed.

(** X10: what [detect] leaves in the slot of its device.  Either the
    slot is all zero, and it is so whenever [detect] returns [false]; or
    [detect] returned [true] and the slot is connected and holds a
    connector, an encoder and a CRTC.  Nothing half-resolved is left
    behind. *)
Theorem detect_all_or_nothing env device s r s' :
  mInitialized s = true ->
  0 <= getOutputIndex device ->
  detect env device s = Some (r, s') ->
  exists o',
    mOutputs s' !! Z.to_nat (getOutputIndex device) = Some o' /\
    (r = false -> o' = zero_output) /\
    (o' = zero_output \/
     r = true /\ connected o' = true /\
     is_Some (connector o') /\ is_Some (encoder o') /\ is_Some (crtc o')).
Proof.
  intros Hi Hidx H.
  destruct (detect_slot _ _ _ _ _ Hi Hidx H) as (o' & Hlt & Hout & Hf & Ho').
  exists o'. split; [|by split].
  rewrite Hout. by apply list_lookup_insert_eq.
Qed.

Lemma detect_all_or_nothing_witness :
  mInitialized Scenario.idle = true /\
  0 <= getOutputIndex DEVICE_EXTERNAL /\
  exists s' o',
    detect (Scenario.machine 7 (-22) 0) DEVICE_EXTERNAL Scenario.idle = Some (false, s') /\
    mOutputs s' !! Z.to_nat (getOutputIndex DEVICE_EXTERNAL) = Some o' /\
    o' = zero_output.
Proof.
  assert (H2 : 0 <= getOutputIndex DEVICE_EXTERNAL) by (vm_compute; discriminate).
  split; [reflexivity|]. split; [exact H2|].
  eexists.
  destruct (detect_all_or_nothing (Scenario.machine 7 (-22) 0) DEVICE_EXTERNAL
              Scenario.idle false _ eq_refl H2 eq_refl) as (o' & Ho & Hz & _).
  exists o'. split; [reflexivity|]. split; [exact Ho|]. by apply Hz.
Defined.

(** X11: once the kernel has supplied its resource list, [detect] hands
    it back as its last call, whatever it found. *)
Theorem detect_frees_resources env device s res r s' :
  mInitialized s = true ->
  0 <= getOutputIndex device ->
  drmModeGetResources env = Some res ->
  detect env device s = Some (r, s') ->
  exists tr tr',
    calls s' = calls s ++ tr ++ [c_drmModeGetResources] ++ tr' ++ [c_drmModeFreeResources].
Proof.
  intros Hi Hidx Hres H.
  destruct (detect_inv _ _ _ _ _ Hi Hidx H) as (o0 & _ & _ & _ & Hrest).
  rewrite Hres in Hrest. destruct Hrest as (_ & _ & _ & _ & _ & _ & tr' & Hc).
  by eexists _, _.
Qed.

Lemma detect_frees_resources_witness :
  mInitialized Scenario.idle = true /\
  0 <= getOutputIndex DEVICE_EXTERNAL /\
  drmModeGetResources Scenario.tmds_first = Some Scenario.topology_tmds_first /\
  exists s' tr tr',
    detect Scenario.tmds_first DEVICE_EXTERNAL Scenario.idle = Some (false, s') /\
    calls s' = calls Scenario.idle ++ tr ++ [c_drmModeGetResources] ++ tr' ++
               [c_drmModeFreeResources].
Proof.
  assert (H2 : 0 <= getOutputIndex DEVICE_EXTERNAL) by (vm_compute; discriminate).
  split; [reflexivity|]. split; [exact H2|]. split; [reflexivity|].
  eexists.
  destruct (detect_frees_resources Scenario.tmds_first DEVICE_EXTERNAL Scenario.idle
              Scenario.topology_tmds_first false _ eq_refl H2 eq_refl eq_refl)
    as (tr & tr' & Hc).
  exists tr, tr'. split; [reflexivity|exact Hc].
Defined.

(** X12: when [detect] has found a display, the physical size reported
    afterwards is that of the first connector of the device's type in
    the kernel's list, and that connector is connected. *)
Theorem physical_size_after_detect env device s res r s' :
  mInitialized s = true ->
  0 <= getOutputIndex device ->
  drmModeGetResources env = Some res ->
  detect env device s = Some (r, s') ->
  isConnected device s' = Some (true, s') ->
  exists j k,
    matching_connector env device (connectors res) = Some (j, k) /\
    connection k = DRM_MODE_CONNECTED /\
    r = true /\
    getPhysicalSize device s' = Some (Some (mmWidth k, mmHeight k), s').
Proof.
  intros Hi Hidx Hres H Hconn.
  destruct (detect_inv _ _ _ _ _ Hi Hidx H) as (o0 & Ho & _ & _ & Hrest).
  assert (Hlt : (Z.to_nat (getOutputIndex device) < length (mOutputs s))%nat)
    by by eapply lookup_lt_Some.
  rewrite Hres in Hrest. destruct Hrest as (r0 & o' & tr & Hscan & -> & Hout & _).
  assert (Hslot : mOutputs s' !! Z.to_nat (getOutputIndex device)
                  = Some (if r0 then o' else zero_output)).
  { rewrite Hout. by apply list_lookup_insert_eq. }
  unfold isConnected in Hconn. unfold getPhysicalSize.
  destruct (Z.ltb_spec (getOutputIndex device) 0) as [?|_]; [lia|].
  rewrite Hslot in *. cbn in Hconn.
  destruct r0; [|by simplify_eq].
  assert (Hc : connected o' = true) by by simplify_eq.
  apply connector_scan_inv in Hscan.
  destruct (matching_connector env device (connectors res)) as [[j k]|];
    [|by destruct Hscan].
  destruct (negb (connection k =? DRM_MODE_CONNECTED)) eqn:Ek.
  - destruct Hscan as [_ ->]. done.
  - destruct Hscan as [tr' Hd]. apply detect_connected_true in Hd as (_ & Hk & _ & _).
    exists j, k. split; [done|]. split.
    { apply negb_false_iff in Ek. by apply Z.eqb_eq. }
    split; [done|]. cbn. by rewrite Hc, Hk.
Qed.

Lemma physical_size_after_detect_witness :
  exists s',
    detect (Scenario.machine 7 0 0) DEVICE_EXTERNAL Scenario.idle = Some (true, s') /\
    isConnected DEVICE_EXTERNAL s' = Some (true, s') /\
    getPhysicalSize DEVICE_EXTERNAL s' = Some (Some (520, 290), s').
Proof.
  eexists. split; [reflexivity|]. split; [reflexivity|].
  destruct (physical_size_after_detect (Scenario.machine 7 0 0) DEVICE_EXTERNAL
              Scenario.idle Scenario.topology true _ eq_refl
              ltac:(vm_compute; discriminate) eq_refl eq_refl eq_refl)
    as (j & k & Hm & _ & _ & Hp).
  vm_compute in Hm. simplify_eq. exact Hp.
Defined.

(** ** Reachable states, and what is defined in them *)

Lemma handles_inv_zero : handles_inv zero_output.
Proof. intros H. discriminate H. Qed.

Lemma resetOutput_length index s s' :
  resetOutput index s = Some s' -> length (mOutputs s') = length (mOutputs s).
Proof.
  intros H. apply resetOutput_Some in H as (o & _ & ->). cbn. apply length_insert.
Qed.

Lemma resetOutputs_length n : forall i s s',
  resetOutputs i n s = Some s' -> length (mOutputs s') = length (mOutputs s).
Proof.
  induction n as [|n IH]; intros i s s' H; cbn in H.
  - by simplify_eq.
  - destruct (resetOutput i s) as [s1|] eqn:E; [|done]. cbn in H.
    rewrite (IH _ _ _ H). by eapply resetOutput_length.
Qed.

Lemma detect_handles env device s r s' :
  detect env device s = Some (r, s') ->
  length (mOutputs s') = length (mOutputs s) /\
  (Forall handles_inv (mOutputs s) -> Forall handles_inv (mOutputs s')).
Proof.
  intros H.
  destruct (mInitialized s) eqn:Hi.
  2:{ unfold detect, not_init in H. rewrite Hi in H. cbn in H. by simplify_eq. }
  destruct (Z.ltb_spec (getOutputIndex device) 0) as [Hneg|Hidx].
  { unfold detect, not_init in H. rewrite Hi in H. cbn [negb] in H.
    destruct (Z.ltb_spec (getOutputIndex device) 0); [|lia]. by simplify_eq. }
  destruct (detect_slot _ _ _ _ _ Hi Hidx H) as (o' & _ & -> & _ & Ho').
  split; [apply length_insert|]. intros Hs. apply Forall_insert; [done|].
  destruct Ho' as [->|(_ & _ & ? & ? & ?)]; [apply handles_inv_zero|].
  by intros _.
Qed.

Lemma setDrmMode_index_handles env index m s ret s' :
  setDrmMode_index env index m s = Some (ret, s') ->
  length (mOutputs s') = length (mOutputs s) /\
  (Forall handles_inv (mOutputs s) -> Forall handles_inv (mOutputs s')).
Proof.
  unfold setDrmMode_index. intros H.
  destruct (mOutputs s !! index) as [o|] eqn:Ho; [|done]. cbn in H.
  destruct (setDrmMode_at env m o) as [[[r o'] tr]|] eqn:E; [|done].
  cbn in H. simplify_eq. cbn. split; [apply length_insert|].
  intros Hs. apply Forall_insert; [done|].
  apply setDrmMode_at_fields in E as (Hk & He & Hc & Hcn & _).
  pose proof (Forall_lookup_1 _ _ _ _ Hs Ho) as Hinv.
  unfold handles_inv in *. by rewrite Hk, He, Hc, Hcn.
Qed.

Lemma run_handles env op s ret s' :
  run env op s = Some (ret, s') ->
  length (mOutputs s) = Z.to_nat OUTPUT_MAX ->
  Forall handles_inv (mOutputs s) ->
  length (mOutputs s') = Z.to_nat OUTPUT_MAX /\ Forall handles_inv (mOutputs s').
Proof.
  destruct op as [| |device|device value|device hz]; cbn; intros H Hlen Hs.
  - unfold initialize in H. destruct (mInitialized s); [by simplify_eq|].
    cbn in H. destruct (env_open env <? 0); simplify_eq; cbn; [by split|].
    split; [apply length_replicate|]. apply Forall_replicate, handles_inv_zero.
  - destruct (deinitialize s) as [s1|] eqn:E; [|done]. cbn in H. simplify_eq.
    unfold deinitialize in E.
    destruct (resetOutputs _ _ s) as [s2|] eqn:E2; [|done]. cbn in E.
    pose proof (resetOutputs_length _ _ _ _ E2) as Hl.
    apply (resetOutputs_Forall handles_inv) in E2; [|apply handles_inv_zero|done].
    simplify_eq. destruct (negb _); cbn; split; congruence.
  - apply detect_handles in H as [Hl Hf]. split; [congruence|by apply Hf].
  - unfold setDrmMode in H.
    repeat (case_match; simplify_option_eq; try done).
    match goal with
    | H : setDrmMode_index _ _ _ _ = _ |- _ =>
        apply setDrmMode_index_handles in H as [Hl Hf]
    end.
    split; [congruence|by apply Hf].
  - unfold setRefreshRate in H.
    repeat (case_match; simplify_option_eq; try done).
    match goal with
    | H : setDrmMode_index _ _ _ _ = _ |- _ =>
        apply setDrmMode_index_handles in H as [Hl Hf]
    end.
    split; [congruence|by apply Hf].
Qed.

Lemma reachable_table s :
  reachable s ->
  length (mOutputs s) = Z.to_nat OUTPUT_MAX /\ Forall handles_inv (mOutputs s).
Proof.
  induction 1 as [|env op s ret s' _ [IHl IHf] Hrun].
  - split; [apply length_replicate|]. apply Forall_replicate, handles_inv_zero.
  - by eapply run_handles.
Qed.

(** X13: in every state the object can reach, the table has its two
    slots, and a slot marked connected holds a connector, an encoder and
    a CRTC. *)
Theorem reachable_handles s :
  reachable s ->
  length (mOutputs s) = Z.to_nat OUTPUT_MAX /\
  forall index o, mOutputs s !! index = Some o -> connected o = true ->
    is_Some (connector o) /\ is_Some (encoder o) /\ is_Some (crtc o).
Proof.
  intros Hr. destruct (reachable_table s Hr) as [Hlen Hinv].
  split; [done|]. intros index o Ho. by eapply (Forall_lookup_1 handles_inv).
Qed.

Lemma reachable_handles_witness :
  reachable Scenario.running /\
  length (mOutputs Scenario.running) = Z.to_nat OUTPUT_MAX /\
  forall index o, mOutputs Scenario.running !! index = Some o -> connected o = true ->
    is_Some (connector o) /\ is_Some (encoder o) /\ is_Some (crtc o).
Proof.
  split; [apply running_reachable|].
  exact (reachable_handles Scenario.running running_reachable).
Defined.

Lemma setDrmMode_at_defined env m o :
  (connected o = true -> is_Some (connector o) /\ is_Some (crtc o)) ->
  connected o = true ->
  is_Some (setDrmMode_at env m o).
Proof.
  intros Hinv Hc. destruct (Hinv Hc) as [[k Hk] [c Hcr]].
  unfold setDrmMode_at.
  destruct o as [k' e c' cur h f b]; cbn in *. subst.
  repeat (case_match; simplify_eq/=); by eexists.
Qed.

Lemma explicit_request_defined env index s o k (same : drmModeModeInfo -> bool) :
  mOutputs s !! index = Some o ->
  handles_inv o ->
  connected o = true ->
  connector o = Some k ->
  (count_modes k <=? 0) = false ->
  is_Some (modes k !! select_mode same 0 0 (modes k)
             ≫= λ m, setDrmMode_index env index m s).
Proof.
  intros Ho Hinv Hc Hk Hcount.
  assert (Hne : modes k <> []).
  { intros E. unfold count_modes in Hcount. by rewrite E in Hcount. }
  assert (Hsel : select_mode same 0 0 (modes k) = tie_break_rule same (modes k))
    by (rewrite select_mode_spec; reflexivity).
  destruct (lookup_lt_is_Some_2 _ _ (tie_break_rule_in_range same _ Hne)) as [m Hm].
  rewrite Hsel, Hm. cbn. unfold setDrmMode_index. rewrite Ho. cbn.
  destruct (setDrmMode_at_defined env m o) as [[[r o'] tr] ->]; [|done|by eexists].
  intros _. destruct (Hinv Hc) as (? & _ & ?). done.
Qed.

(** X14: in every state the object can reach, the accessors, the two
    explicit mode requests and [deinitialize] are defined: no null
    handle is dereferenced, the table and the connector's mode list are
    read within their bounds. *)
Theorem reachable_operations_defined s :
  reachable s ->
  forall env device value hz,
    is_Some (getModeInfo device s) /\
    is_Some (getPhysicalSize device s) /\
    is_Some (isConnected device s) /\
    is_Some (setDrmMode env device value s) /\
    is_Some (setRefreshRate env device hz s) /\
    is_Some (deinitialize s).
Proof.
  intros Hr env device value hz.
  destruct (reachable_table s Hr) as [Hlen Hinv].
  assert (Hslot : 0 <= getOutputIndex device ->
            exists o, mOutputs s !! Z.to_nat (getOutputIndex device) = Some o /\
                      handles_inv o).
  { intros Hidx.
    destruct (lookup_lt_is_Some_2 _ _ (lookup_output device s Hidx Hlen)) as [o Ho].
    exists o. split; [done|]. by eapply Forall_lookup_1. }
  assert (Hreq : forall same : DrmOutput -> drmModeModeInfo -> bool,
    is_Some (
      if not_init s then Some (false, s) else
      if negb (device =? DEVICE_EXTERNAL) then Some (false, s) else
      if getOutputIndex device <? 0 then Some (false, s) else
      o ← mOutputs s !! Z.to_nat (getOutputIndex device);
      if negb (connected o) then Some (false, s) else
      k ← connector o;
      if count_modes k <=? 0 then Some (false, s) else
      m ← modes k !! select_mode (same o) 0 0 (modes k);
      setDrmMode_index env (Z.to_nat (getOutputIndex device)) m s)).
  { intros same.
    destruct (not_init s); [by eexists|].
    destruct (negb (device =? DEVICE_EXTERNAL)); [by eexists|].
    destruct (Z.ltb_spec (getOutputIndex device) 0) as [?|Hidx]; [by eexists|].
    destruct (Hslot Hidx) as (o & Ho & Ho'). rewrite Ho. cbn.
    destruct (connected o) eqn:Hc; [|by eexists]. cbn.
    destruct (Ho' Hc) as ([k Hk] & _ & _). rewrite Hk. cbn.
    destruct (count_modes k <=? 0) eqn:Hcount; [by eexists|].
    by eapply explicit_request_defined. }
  repeat split.
  - unfold getModeInfo.
    destruct (Z.ltb_spec (getOutputIndex device) 0) as [?|Hidx]; [by eexists|].
    destruct (Hslot Hidx) as (o & -> & _). cbn.
    repeat case_match; by eexists.
  - unfold getPhysicalSize.
    destruct (Z.ltb_spec (getOutputIndex device) 0) as [?|Hidx]; [by eexists|].
    destruct (Hslot Hidx) as (o & -> & Ho'). cbn.
    destruct (connected o) eqn:Hc; [|by eexists]. cbn.
    destruct (Ho' Hc) as ([k ->] & _ & _). by eexists.
  - unfold isConnected.
    destruct (Z.ltb_spec (getOutputIndex device) 0) as [?|Hidx]; [by eexists|].
    destruct (Hslot Hidx) as (o & -> & _). by eexists.
  - exact (Hreq (fun _ => isSameDrmMode value)).
  - exact (Hreq (fun o => sameRefresh (mode o) hz)).
  - destruct s as [fd ini outs tr]. cbn in Hlen.
    destruct outs as [|o0 [|o1 [|? ?]]]; try discriminate Hlen.
    rewrite deinitialize_eq. by eexists.
Qed.

Lemma reachable_operations_defined_witness :
  reachable Scenario.stuck /\
  is_Some (getPhysicalSize DEVICE_EXTERNAL Scenario.stuck) /\
  is_Some (setRefreshRate (Scenario.machine 9 0 0) DEVICE_EXTERNAL 60 Scenario.stuck).
Proof.
  assert (H : reachable Scenario.stuck).
  { eapply (reachable_run (Scenario.machine 8 (-22) 0)
              (op_setDrmMode DEVICE_EXTERNAL Scenario.mode_720p) Scenario.running false);
      [apply running_reachable|reflexivity]. }
  split; [exact H|].
  destruct (reachable_operations_defined Scenario.stuck H (Scenario.machine 9 0 0)
              DEVICE_EXTERNAL zero_mode 60) as (_ & H2 & _ & _ & H5 & _).
  split; assumption.
Defined.

(** ** The mode commit and the explicit requests *)

Lemma isSameDrmMode_refl m : isSameDrmMode m m = true.
Proof.
  unfold isSameDrmMode. by rewrite !Z.eqb_refl, Z.land_diag, Z.eqb_refl.
Qed.

(** X15: [isSameDrmMode] is a preorder and not an equivalence: every
    mode is the same as itself, the comparison composes, two modes each
    the same as the other agree on resolution, refresh and flags, and a
    request with fewer flags is the same as a base with more but not
    the other way round. *)
Theorem isSameDrmMode_preorder :
  (forall m, isSameDrmMode m m = true) /\
  (forall a b c,
     isSameDrmMode a b = true -> isSameDrmMode b c = true ->
     isSameDrmMode a c = true) /\
  (forall a b,
     isSameDrmMode a b = true -> isSameDrmMode b a = true ->
     hdisplay a = hdisplay b /\ vdisplay a = vdisplay b /\
     vrefresh a = vrefresh b /\ flags a = flags b) /\
  (isSameDrmMode (mkMode 1920 1080 60 1 0) (mkMode 1920 1080 60 5 0) = true /\
   isSameDrmMode (mkMode 1920 1080 60 5 0) (mkMode 1920 1080 60 1 0) = false).
Proof.
  split; [exact isSameDrmMode_refl|]. split; [|split; [|by split]].
  - intros a b c Hab Hbc.
    apply isSameDrmMode_spec in Hab as (? & ? & ? & Hf1).
    apply isSameDrmMode_spec in Hbc as (? & ? & ? & Hf2).
    apply isSameDrmMode_spec. repeat split; try congruence.
    intros n Hn Hbit. by apply Hf2, Hf1.
  - intros a b Hab Hba.
    apply isSameDrmMode_spec in Hab as (? & ? & ? & Hf1).
    apply isSameDrmMode_spec in Hba as (? & ? & ? & Hf2).
    repeat split; try done.
    apply Z.bits_inj'. intros n Hn.
    destruct (Z.testbit (flags a) n) eqn:Ea, (Z.testbit (flags b) n) eqn:Eb; try done.
    + by rewrite (Hf1 n Hn Ea) in Eb.
    + by rewrite (Hf2 n Hn Eb) in Ea.
Qed.

Lemma setDrmMode_at_result env m o r o' tr :
  setDrmMode_at env m o = Some (r, o', tr) ->
  (r = true <-> isSameDrmMode m (mode o') = true) /\
  (r = false -> mode o' = mode o) /\
  (r = true -> isSameDrmMode m (mode o) = false ->
   mode o' = m /\ fbHandle o' <> 0 /\
   exists tr', tr = c_allocFrameBuffer (hdisplay m) (vdisplay m) (fbHandle o') :: tr').
Proof.
  unfold setDrmMode_at. intros H.
  pose proof (isSameDrmMode_refl m) as Hrefl.
  destruct o as [k e c cur h f b]; cbn in *.
  destruct c, k;
    repeat (case_match; simplify_eq/=); cbn;
    (split; [split; congruence|]); (split; [congruence|]);
    intros; try congruence;
    (split; [done|]); (split; [lia|]); by eexists.
Qed.

(** X16: the answer of a commit tells what mode the slot records: the
    commit returns [true] exactly when the recorded mode is afterwards
    the same as the requested one (in the sense of [isSameDrmMode]), and
    when it returns [false] the recorded mode is the one from before. *)
Theorem commit_answer_reflects_mode env index m s r s' :
  setDrmMode_index env index m s = Some (r, s') ->
  exists o o',
    mOutputs s !! index = Some o /\
    mOutputs s' !! index = Some o' /\
    (r = true <-> isSameDrmMode m (mode o') = true) /\
    (r = false -> mode o' = mode o).
Proof.
  unfold setDrmMode_index. intros H.
  destruct (mOutputs s !! index) as [o|] eqn:Ho; [|done]. cbn in H.
  destruct (setDrmMode_at env m o) as [[[r1 o'] tr]|] eqn:E; [|done].
  cbn in H. simplify_eq.
  apply setDrmMode_at_result in E as (H1 & H2 & _).
  exists o, o'. split; [done|]. split; [|by split].
  cbn. apply list_lookup_insert_eq. by eapply lookup_lt_Some.
Qed.

Lemma commit_answer_reflects_mode_witness :
  exists s' o',
    setDrmMode_index (Scenario.machine 8 0 (-1)) 1 Scenario.mode_720p Scenario.running
      = Some (false, s') /\
    mOutputs s' !! 1%nat = Some o' /\
    mode o' = Scenario.mode_1080p.
Proof.
  eexists.
  destruct (commit_answer_reflects_mode (Scenario.machine 8 0 (-1)) 1
              Scenario.mode_720p Scenario.running false _ eq_refl)
    as (o & o' & Ho & Ho' & _ & Hm).
  exists o'. split; [reflexivity|]. split; [exact Ho'|].
  rewrite (Hm eq_refl). vm_compute in Ho. by simplify_eq.
Defined.

(** The path of a commit through a refused bind, on the running slot. *)
Lemma setDrmMode_at_bound_witness :
  setDrmMode_at (Scenario.machine 8 0 (-1)) Scenario.mode_720p
    (Scenario.external_slot 7 107)
  = Some (false, Scenario.external_slot 8 108,
          [c_allocFrameBuffer 1280 720 8; c_drmModeAddFB 8 0;
           c_drmModeSetCrtc 51 108 31 (-1); c_drmModeRmFB 107; c_freeFrameBuffer 7]).
Proof.
  exact (setDrmMode_at_bound (Scenario.machine 8 0 (-1)) Scenario.mode_720p
           (Scenario.external_slot 7 107) 8 5120 108 Scenario.pipe_b
           (Scenario.hdmi 1 41) eq_refl eq_refl ltac:(discriminate) eq_refl
           eq_refl eq_refl).
Defined.

(** X18: an explicit request for a mode the connector does not list (no
    listed mode is the same as it) is not refused: the last listed mode
    flagged preferred, or the first mode if none is flagged, is
    committed in its place. *)
Theorem setDrmMode_unlisted_mode_falls_back env value s o k :
  mInitialized s = true ->
  mOutputs s !! Z.to_nat OUTPUT_EXTERNAL = Some o ->
  connected o = true ->
  connector o = Some k ->
  modes k <> [] ->
  Forall (fun m => isSameDrmMode value m = false) (modes k) ->
  exists m,
    modes k !! default O (last_index preferred (modes k)) = Some m /\
    setDrmMode env DEVICE_EXTERNAL value s =
    setDrmMode_index env (Z.to_nat OUTPUT_EXTERNAL) m s.
Proof.
  intros Hi Ho Hc Hk Hne Hall.
  destruct (setDrmMode_selects_by_rule env value s o k Hi Ho Hc Hk Hne)
    as (m & Hm & Heq).
  exists m. split; [|done].
  unfold tie_break_rule in Hm.
  by rewrite (proj2 (first_index_None _ _) Hall) in Hm.
Qed.

Lemma setDrmMode_unlisted_mode_falls_back_witness :
  Forall (fun m => isSameDrmMode (mkMode 640 480 60 0 0) m = false)
    (modes (Scenario.hdmi 1 41)) /\
  setDrmMode (Scenario.machine 8 0 0) DEVICE_EXTERNAL (mkMode 640 480 60 0 0)
    Scenario.running
  = setDrmMode_index (Scenario.machine 8 0 0) 1 Scenario.mode_1080p Scenario.running /\
  setDrmMode (Scenario.machine 8 0 0) DEVICE_EXTERNAL (mkMode 640 480 60 0 0)
    Scenario.running
  = Some (true, Scenario.running).
Proof.
  assert (H : Forall (fun m => isSameDrmMode (mkMode 640 480 60 0 0) m = false)
                (modes (Scenario.hdmi 1 41))) by (repeat constructor).
  split; [exact H|].
  destruct (setDrmMode_unlisted_mode_falls_back (Scenario.machine 8 0 0)
              (mkMode 640 480 60 0 0) Scenario.running (Scenario.external_slot 7 107)
              (Scenario.hdmi 1 41) eq_refl eq_refl eq_refl eq_refl
              ltac:(discriminate) H) as (m & Hm & Heq).
  vm_compute in Hm. simplify_eq. split; [exact Heq|reflexivity].
Defined.

(** X19: when the connector lists a mode with the slot's current
    resolution and the requested refresh rate, [setRefreshRate] never
    changes the resolution, and if it returns [true] the recorded
    refresh rate is the requested one (as a 32-bit unsigned number). *)
Theorem setRefreshRate_keeps_resolution env hz s o k i r s' :
  mInitialized s = true ->
  mOutputs s !! Z.to_nat OUTPUT_EXTERNAL = Some o ->
  connected o = true ->
  connector o = Some k ->
  first_index (sameRefresh (mode o) hz) (modes k) = Some i ->
  setRefreshRate env DEVICE_EXTERNAL hz s = Some (r, s') ->
  exists o',
    mOutputs s' !! Z.to_nat OUTPUT_EXTERNAL = Some o' /\
    hdisplay (mode o') = hdisplay (mode o) /\
    vdisplay (mode o') = vdisplay (mode o) /\
    (r = true -> vrefresh (mode o') = hz mod 2 ^ 32).
Proof.
  intros Hi Ho Hc Hk Hfirst H.
  assert (Hne : modes k <> []) by (intros E; by rewrite E in Hfirst).
  destruct (setRefreshRate_selects_by_rule env hz s o k Hi Ho Hc Hk Hne)
    as (m & Hm & Heq).
  unfold tie_break_rule in Hm. rewrite Hfirst in Hm.
  apply first_index_Some in Hfirst as [(m' & Hm' & Hsame) _].
  rewrite Hm in Hm'. injection Hm' as <-.
  unfold sameRefresh in Hsame. rewrite !andb_true_iff, !Z.eqb_eq in Hsame.
  destruct Hsame as [[Hh Hv] Hr].
  rewrite Heq in H. unfold setDrmMode_index in H. rewrite Ho in H. cbn in H.
  destruct (setDrmMode_at env m o) as [[[r1 o'] tr]|] eqn:E; [|done].
  cbn in H. simplify_eq.
  apply setDrmMode_at_result in E as (H1 & H2 & _).
  exists o'. split.
  { cbn. apply list_lookup_insert_eq. by eapply lookup_lt_Some. }
  destruct r.
  - apply proj1 in H1. specialize (H1 eq_refl).
    apply isSameDrmMode_spec in H1 as (? & ? & ? & _).
    repeat split; congruence.
  - rewrite (H2 eq_refl). repeat split. done.
Qed.

Lemma setRefreshRate_keeps_resolution_witness :
  first_index (sameRefresh Scenario.mode_1080p 60) (modes (Scenario.hdmi 1 41)) = Some 0%nat /\
  exists s' o',
    setRefreshRate (Scenario.machine 8 0 0) DEVICE_EXTERNAL 60 Scenario.running
      = Some (true, s') /\
    mOutputs s' !! Z.to_nat OUTPUT_EXTERNAL = Some o' /\
    hdisplay (mode o') = 1920 /\ vdisplay (mode o') = 1080 /\
    vrefresh (mode o') = 60.
Proof.
  split; [reflexivity|]. eexists.
  destruct (setRefreshRate_keeps_resolution (Scenario.machine 8 0 0) 60
              Scenario.running (Scenario.external_slot 7 107) (Scenario.hdmi 1 41)
              0%nat true _ eq_refl eq_refl eq_refl eq_refl eq_refl eq_refl)
    as (o' & Ho' & Hh & Hv & Hr).
  exists o'. split; [reflexivity|]. split; [exact Ho'|].
  split; [exact Hh|]. split; [exact Hv|]. exact (Hr eq_refl).
Defined.

(** X20: an explicit request on the external device is refused,
    leaving the object as it is, when the slot is not connected and when
    the connector lists no mode at all. *)
Theorem explicit_request_refused env value hz s o :
  mInitialized s = true ->
  mOutputs s !! Z.to_nat OUTPUT_EXTERNAL = Some o ->
  connected o = false \/ (exists k, connector o = Some k /\ modes k = []) ->
  setDrmMode env DEVICE_EXTERNAL value s = Some (false, s) /\
  setRefreshRate env DEVICE_EXTERNAL hz s = Some (false, s).
Proof.
  intros Hi Ho Hcase. unfold setDrmMode, setRefreshRate, not_init. rewrite Hi.
  cbn [negb].
  change (getOutputIndex DEVICE_EXTERNAL) with OUTPUT_EXTERNAL.
  change (DEVICE_EXTERNAL =? DEVICE_EXTERNAL) with true.
  change (OUTPUT_EXTERNAL <? 0) with false. cbn [negb].
  rewrite Ho. cbn [mbind option_bind].
  destruct (connected o) eqn:Hc; [|done]. cbn [negb].
  destruct Hcase as [?|(k & -> & Hm)]; [done|].
  cbn [mbind option_bind]. unfold count_modes. by rewrite Hm.
Qed.

Lemma explicit_request_refused_witness :
  mInitialized Scenario.idle = true /\
  mOutputs Scenario.idle !! Z.to_nat OUTPUT_EXTERNAL = Some zero_output /\
  setDrmMode (Scenario.machine 8 0 0) DEVICE_EXTERNAL Scenario.mode_720p Scenario.idle
    = Some (false, Scenario.idle) /\
  setRefreshRate (Scenario.machine 8 0 0) DEVICE_EXTERNAL 60 Scenario.idle
    = Some (false, Scenario.idle).
Proof.
  split; [reflexivity|]. split; [reflexivity|].
  exact (explicit_request_refused (Scenario.machine 8 0 0) Scenario.mode_720p 60
           Scenario.idle zero_output eq_refl eq_refl (or_introl eq_refl)).
Defined.

(** ** The scans of [detect] *)

(** X21: the CRTC scan returns the first spare CRTC of the kernel's
    list: every entry before it is zero, unknown to the kernel or
    driving a buffer; and it returns none exactly when every entry is
    so. *)
Theorem crtc_scan_first_spare env js :
  match (crtc_scan env js).1 with
  | Some c =>
      Crtc.buffer_id c = 0 /\
      exists pre cj post,
        js = pre ++ cj :: post /\ cj <> 0 /\
        drmModeGetCrtc env cj = Some c /\ Forall (crtc_busy env) pre
  | None => Forall (crtc_busy env) js
  end.
Proof.
  induction js as [|cj js IH]; cbn [crtc_scan]; [by constructor|].
  assert (Hnext : crtc_busy env cj ->
    match (crtc_scan env js).1 with
    | Some c =>
        Crtc.buffer_id c = 0 /\
        exists pre cj' post,
          cj :: js = pre ++ cj' :: post /\ cj' <> 0 /\
          drmModeGetCrtc env cj' = Some c /\ Forall (crtc_busy env) pre
    | None => Forall (crtc_busy env) (cj :: js)
    end).
  { intros Hbusy. destruct ((crtc_scan env js).1) as [c|].
    - destruct IH as (Hb & pre & cj' & post & -> & ? & ? & ?).
      split; [done|]. exists (cj :: pre), cj', post.
      repeat split; try done. by constructor.
    - by constructor. }
  destruct (Z.eqb_spec cj 0) as [->|Hcj]; [apply Hnext; by left|].
  destruct (drmModeGetCrtc env cj) as [c|] eqn:Hget.
  - destruct (Z.eqb_spec (Crtc.buffer_id c) 0) as [Hb|Hb]; cbn.
    + split; [done|]. exists [], cj, js. by repeat split.
    + destruct (crtc_scan env js) as [r tr] eqn:E. cbn in *.
      apply Hnext. right; right. by exists c.
  - destruct (crtc_scan env js) as [r tr] eqn:E. cbn in *.
    apply Hnext. right; by left.
Qed.

(** The entry the encoder loop fetches for the second connector. *)
Lemma encoder_scan_fetches_one_entry_witness :
  encoder_scan Scenario.tmds_first DEVICE_EXTERNAL Scenario.topology_tmds_first 1
    (encoders Scenario.topology_tmds_first)
  = Some (None, [c_drmModeGetEncoder 40; c_drmModeFreeEncoder 40;
                 c_drmModeGetEncoder 40; c_drmModeFreeEncoder 40]) /\
  encoders Scenario.topology_tmds_first !! 1%nat = Some 40.
Proof.
  split; [reflexivity|].
  apply (encoder_scan_fetches_one_entry Scenario.tmds_first DEVICE_EXTERNAL
           Scenario.topology_tmds_first 1 (encoders Scenario.topology_tmds_first)
           None [c_drmModeGetEncoder 40; c_drmModeFreeEncoder 40;
                 c_drmModeGetEncoder 40; c_drmModeFreeEncoder 40] 40 eq_refl).
  apply list_elem_of_here.
Defined.

(** ** How the operations compose *)

Lemma setDrmMode_index_frame env index m s r s' :
  setDrmMode_index env index m s = Some (r, s') ->
  mDrmFd s' = mDrmFd s /\ mInitialized s' = mInitialized s /\
  forall j o, mOutputs s !! j = Some o ->
    exists o', mOutputs s' !! j = Some o' /\
      connector o' = connector o /\ encoder o' = encoder o /\
      crtc o' = crtc o /\ connected o' = connected o /\
      (j <> index -> o' = o).
Proof.
  unfold setDrmMode_index. intros H.
  destruct (mOutputs s !! index) as [o|] eqn:Ho; [|done]. cbn in H.
  destruct (setDrmMode_at env m o) as [[[r1 o'] tr]|] eqn:E; [|done].
  cbn in H. simplify_eq. cbn. split; [done|]. split; [done|].
  apply setDrmMode_at_fields in E as (Hk & He & Hc & Hcn & _).
  intros j oj Hj. destruct (decide (j = index)) as [->|Hne].
  - simplify_eq. exists o'. split.
    { apply list_lookup_insert_eq. by eapply lookup_lt_Some. }
    by repeat split.
  - exists oj. split; [by rewrite list_lookup_insert_ne|]. by repeat split.
Qed.

(** X22: the explicit requests change nothing but the mode and the
    framebuffer pair of the external slot: the descriptor, the
    initialisation flag, the other slot, and the connector, encoder,
    CRTC and connection state of the external slot are as before. *)
Theorem explicit_request_frame env device value hz s r s' :
  setDrmMode env device value s = Some (r, s') \/
  setRefreshRate env device hz s = Some (r, s') ->
  mDrmFd s' = mDrmFd s /\ mInitialized s' = mInitialized s /\
  forall j o, mOutputs s !! j = Some o ->
    exists o', mOutputs s' !! j = Some o' /\
      connector o' = connector o /\ encoder o' = encoder o /\
      crtc o' = crtc o /\ connected o' = connected o /\
      (j <> Z.to_nat OUTPUT_EXTERNAL -> o' = o).
Proof.
  assert (Hsame : forall t : Drm,
    mDrmFd t = mDrmFd t /\ mInitialized t = mInitialized t /\
    forall j o, mOutputs t !! j = Some o ->
      exists o', mOutputs t !! j = Some o' /\
        connector o' = connector o /\ encoder o' = encoder o /\
        crtc o' = crtc o /\ connected o' = connected o /\
        (j <> Z.to_nat OUTPUT_EXTERNAL -> o' = o)).
  { intros t. split; [done|]. split; [done|]. intros j o Hj. by exists o. }
  assert (Hidx : forall m,
    (device =? DEVICE_EXTERNAL) = true ->
    setDrmMode_index env (Z.to_nat (getOutputIndex device)) m s = Some (r, s') ->
    mDrmFd s' = mDrmFd s /\ mInitialized s' = mInitialized s /\
    forall j o, mOutputs s !! j = Some o ->
      exists o', mOutputs s' !! j = Some o' /\
        connector o' = connector o /\ encoder o' = encoder o /\
        crtc o' = crtc o /\ connected o' = connected o /\
        (j <> Z.to_nat OUTPUT_EXTERNAL -> o' = o)).
  { intros m Hd H. apply Z.eqb_eq in Hd. subst device.
    exact (setDrmMode_index_frame _ _ _ _ _ _ H). }
  intros [H|H].
  - unfold setDrmMode in H.
    destruct (not_init s); [simplify_eq; apply Hsame|].
    destruct (device =? DEVICE_EXTERNAL) eqn:Hd; cbn [negb] in H;
      [|simplify_eq; apply Hsame].
    destruct (getOutputIndex device <? 0); [simplify_eq; apply Hsame|].
    destruct (mOutputs s !! _) as [o|]; [|done]. cbn in H.
    destruct (negb (connected o)); [simplify_eq; apply Hsame|].
    destruct (connector o) as [k|]; [|done]. cbn in H.
    destruct (count_modes k <=? 0); [simplify_eq; apply Hsame|].
    destruct (modes k !! _) as [m|]; [|done]. cbn in H. by eapply Hidx.
  - unfold setRefreshRate in H.
    destruct (not_init s); [simplify_eq; apply Hsame|].
    destruct (device =? DEVICE_EXTERNAL) eqn:Hd; cbn [negb] in H;
      [|simplify_eq; apply Hsame].
    destruct (getOutputIndex device <? 0); [simplify_eq; apply Hsame|].
    destruct (mOutputs s !! _) as [o|]; [|done]. cbn in H.
    destruct (negb (connected o)); [simplify_eq; apply Hsame|].
    destruct (connector o) as [k|]; [|done]. cbn in H.
    destruct (count_modes k <=? 0); [simplify_eq; apply Hsame|].
    destruct (modes k !! _) as [m|]; [|done]. cbn in H. by eapply Hidx.
Qed.

Lemma explicit_request_frame_witness :
  exists s',
    setDrmMode (Scenario.machine 8 0 0) DEVICE_EXTERNAL Scenario.mode_720p
      Scenario.running = Some (true, s') /\
    mOutputs s' !! 1%nat
      = Some (mkOutput (Some (Scenario.hdmi 1 41)) (Some Scenario.tmds_encoder)
                (Some Scenario.pipe_b) Scenario.mode_720p 8 108 true) /\
    mOutputs s' !! 0%nat = Some zero_output /\
    mDrmFd s' = 3.
Proof.
  eexists. split; [reflexivity|]. split; [reflexivity|].
  destruct (explicit_request_frame (Scenario.machine 8 0 0) DEVICE_EXTERNAL
              Scenario.mode_720p 0 Scenario.running true _ (or_introl eq_refl))
    as (Hfd & _ & Hslots).
  split; [|exact Hfd].
  destruct (Hslots 0%nat zero_output eq_refl) as (o' & Ho' & _ & _ & _ & _ & Heq).
  rewrite Ho'. f_equal. apply Heq. discriminate.
Defined.

(** X23: a successful [setDrmMode] is idempotent: the same request made
    again returns [true] and changes nothing, whatever the surroundings
    would answer; no buffer is allocated a second time. *)
Theorem setDrmMode_again env env' device value s s1 :
  setDrmMode env device value s = Some (true, s1) ->
  setDrmMode env' device value s1 = Some (true, s1).
Proof.
  intros H. unfold setDrmMode in *.
  destruct (not_init s) eqn:Hni; [by simplify_eq|].
  destruct (device =? DEVICE_EXTERNAL) eqn:Hd; [|by simplify_eq]. cbn [negb] in *.
  destruct (getOutputIndex device <? 0); [by simplify_eq|].
  set (index := Z.to_nat (getOutputIndex device)) in *.
  destruct (mOutputs s !! index) as [o|] eqn:Ho; [|done]. cbn [mbind option_bind] in H.
  destruct (connected o) eqn:Hc; [|by simplify_eq]. cbn [negb] in H.
  destruct (connector o) as [k|] eqn:Hk; [|done]. cbn [mbind option_bind] in H.
  destruct (count_modes k <=? 0) eqn:Hcount; [by simplify_eq|].
  destruct (modes k !! _) as [m|] eqn:Hm; [|done]. cbn [mbind option_bind] in H.
  unfold setDrmMode_index in H. rewrite Ho in H. cbn [mbind option_bind] in H.
  destruct (setDrmMode_at env m o) as [[[r1 o'] tr]|] eqn:E; [|done].
  cbn in H. simplify_eq.
  pose proof (setDrmMode_at_fields _ _ _ _ _ _ E) as (Hk' & _ & _ & Hc' & _).
  apply setDrmMode_at_result in E as (Hsame & _ & _).
  apply proj1 in Hsame. specialize (Hsame eq_refl).
  assert (Hlt : (index < length (mOutputs s))%nat) by by eapply lookup_lt_Some.
  assert (Hni' : not_init (store index o' tr s) = false) by exact Hni.
  rewrite Hni'.
  assert (Ho' : mOutputs (store index o' tr s) !! index = Some o').
  { cbn. by apply list_lookup_insert_eq. }
  rewrite Ho'. cbn [mbind option_bind].
  rewrite Hc', Hc, Hk', Hk. cbn [negb mbind option_bind]. rewrite Hcount, Hm.
  cbn [mbind option_bind]. unfold setDrmMode_index. rewrite Ho'.
  cbn [mbind option_bind]. unfold setDrmMode_at. rewrite Hsame.
  cbn [mbind option_bind]. by rewrite store_same.
Qed.

Lemma setDrmMode_again_witness :
  exists s1,
    setDrmMode (Scenario.machine 8 0 0) DEVICE_EXTERNAL Scenario.mode_720p
      Scenario.running = Some (true, s1) /\
    setDrmMode (Scenario.machine 0 (-22) (-1)) DEVICE_EXTERNAL Scenario.mode_720p s1
      = Some (true, s1).
Proof.
  eexists. split; [reflexivity|].
  exact (setDrmMode_again (Scenario.machine 8 0 0) (Scenario.machine 0 (-22) (-1))
           DEVICE_EXTERNAL Scenario.mode_720p Scenario.running _ eq_refl).
Defined.

(** X24: a detection does not depend on what the slot held before: two
    initialised objects detecting the same device in the same
    surroundings get the same answer and the same slot. *)
Theorem detect_forgets_the_past env device s1 s2 r1 r2 s1' s2' :
  mInitialized s1 = true ->
  mInitialized s2 = true ->
  0 <= getOutputIndex device ->
  detect env device s1 = Some (r1, s1') ->
  detect env device s2 = Some (r2, s2') ->
  r1 = r2 /\
  mOutputs s1' !! Z.to_nat (getOutputIndex device)
  = mOutputs s2' !! Z.to_nat (getOutputIndex device).
Proof.
  intros Hi1 Hi2 Hidx H1 H2.
  destruct (detect_inv _ _ _ _ _ Hi1 Hidx H1) as (o1 & Ho1 & _ & _ & Hr1).
  destruct (detect_inv _ _ _ _ _ Hi2 Hidx H2) as (o2 & Ho2 & _ & _ & Hr2).
  assert (Hl1 := lookup_lt_Some _ _ _ Ho1). assert (Hl2 := lookup_lt_Some _ _ _ Ho2).
  destruct (drmModeGetResources env) as [res|].
  - destruct Hr1 as (ra & oa & tra & Hsa & -> & Houta & _).
    destruct Hr2 as (rb & ob & trb & Hsb & -> & Houtb & _).
    rewrite Hsa in Hsb. simplify_eq. split; [done|].
    by rewrite Houta, Houtb, !list_lookup_insert_eq.
  - destruct Hr1 as (-> & Houta & _). destruct Hr2 as (-> & Houtb & _).
    split; [done|]. by rewrite Houta, Houtb, !list_lookup_insert_eq.
Qed.

Lemma detect_forgets_the_past_witness :
  exists s1' s2',
    detect (Scenario.machine 7 0 0) DEVICE_EXTERNAL Scenario.idle = Some (true, s1') /\
    detect (Scenario.machine 7 0 0) DEVICE_EXTERNAL Scenario.stuck = Some (true, s2') /\
    mOutputs s1' !! 1%nat = mOutputs s2' !! 1%nat.
Proof.
  eexists _, _. split; [reflexivity|]. split; [reflexivity|].
  exact (proj2 (detect_forgets_the_past (Scenario.machine 7 0 0) DEVICE_EXTERNAL
                  Scenario.idle Scenario.stuck true true _ _ eq_refl eq_refl
                  ltac:(vm_compute; discriminate) eq_refl eq_refl)).
Defined.

(** The release order of a reset, on the running slot. *)
Lemma resetOutput_at_releases_framebuffer_witness :
  exists tr,
    (resetOutput_at (Scenario.external_slot 7 107)).2 =
    tr ++ [c_drmModeRmFB 107; c_freeFrameBuffer 7].
Proof.
  exact (resetOutput_at_releases_framebuffer (Scenario.external_slot 7 107)
           ltac:(discriminate) ltac:(discriminate)).
Defined.
